(** * DTMFGenerator: tone synthesis and wave-file serialisation

    A shallow embedding of [DTMFGenerator.py] and the properties of its
    pipeline: sequence validation, tone synthesis, waveform assembly and
    the writing of the wave container.

    Modelling conventions.
    - The semantics is that of Python 3: [/] on two ints is true division.
    - Python [int] is [Z] (unbounded).
    - [a / b] on two ints is Python's own algorithm: the quotient rounded
      correctly to binary64, [OverflowError] when it is out of range.  It is
      modelled exactly, on integers ([py_truediv]).
    - The arithmetic on floats and the C library's [sin] belong to the
      platform.  A float is modelled by the real number it stands for, and
      the platform by [binary64]: [rnd], which rounds the real result of an
      operation to the float that is stored, and [fsin], the library's sine.
      What the proofs assume of them is stated in [binary64_ok]; it holds of
      round-to-nearest binary64 arithmetic as long as no operation
      overflows, and none does in [generate_tone]: an index is below
      [2 ^ 1024], so the largest intermediate value, [p * f * pi * 2], is
      below [2 ^ 1024 / 44100 * 1633 * 4 * 2].  Not-a-number and the
      infinities are not values of the model.
    - Memory is unbounded: a list has any length, [MemoryError] is never
      raised.
    - Dynamically typed values (the candidate sequences handed to the setter)
      are values of [pyval]; exceptions are values of [exn].
    - Methods of the class run in a state-and-exception monad over [world]:
      the instance attributes together with the file system.  A raised
      exception keeps the state reached so far, as in Python.
    - Calls to [logging] have no effect on the state; what is kept of them
      is the evaluation of their arguments, which can raise. *)

From stdpp Require Import gmap strings list.
From Stdlib Require Import ZArith Reals Lra Lia Zfloor Permutation.
From Stdlib Require Import DecimalString.

Local Open Scope Z_scope.

Set Warnings "-register-all".

(** ** Module-level constants *)

Definition ROW_FREQ : list Z := [697; 770; 852; 941].
Definition COL_FREQ : list Z := [1209; 1336; 1477; 1633].
Definition SAMPLE_RATE : Z := 44100.
Definition SAMPLE_WIDTH : Z := 2.
Definition NUMBER_OF_CHANNELS : Z := 1.
Definition COMPRESSION_TYPE : string := "NONE".
Definition COMPRESSION_NAME : string := "Uncompressed".

Definition FREQUENCY_MAP : gmap string (Z * Z) :=
  <["S" := (0, 0)]> (
  <["D" := (941, 1633)]> (
  <["#" := (941, 1477)]> (
  <["0" := (941, 1336)]> (
  <["*" := (941, 1209)]> (
  <["C" := (852, 1633)]> (
  <["9" := (852, 1477)]> (
  <["8" := (852, 1336)]> (
  <["7" := (852, 1209)]> (
  <["B" := (770, 1633)]> (
  <["6" := (770, 1477)]> (
  <["5" := (770, 1336)]> (
  <["4" := (770, 1209)]> (
  <["A" := (697, 1633)]> (
  <["3" := (697, 1477)]> (
  <["2" := (697, 1336)]> (
  <["1" := (697, 1209)]> ∅)))))))))))))))).

(** ** Dynamically typed values *)

Inductive pytype :=
  | TNone | TBool | TInt | TFloat | TStr | TList | TTuple | TSet | TDict.

#[global] Instance pytype_eq_dec : EqDecision pytype.
Proof. solve_decision. Defined.

(** The values a caller can hand over as a candidate sequence: what
    [json.loads] can return, and tuples and sets besides.  A float is
    finite; a set is kept as the list of its elements, a dict (with string
    keys, as from JSON) as an association list. *)
Inductive pyval :=
  | PNone
  | PBool (b : bool)
  | PInt (z : Z)
  | PFloat (x : R)
  | PStr (s : string)
  | PList (l : list pyval)
  | PTuple (l : list pyval)
  | PSet (l : list pyval)
  | PDict (l : list (string * pyval)).

(** [type(v)] *)
Definition type_of (v : pyval) : pytype :=
  match v with
  | PNone => TNone
  | PBool _ => TBool
  | PInt _ => TInt
  | PFloat _ => TFloat
  | PStr _ => TStr
  | PList _ => TList
  | PTuple _ => TTuple
  | PSet _ => TSet
  | PDict _ => TDict
  end.

(** [v is None] *)
Definition is_None (v : pyval) : bool :=
  match v with
  | PNone => true
  | _ => false
  end.

(** ** Exceptions and results *)

Inductive exn :=
  | AttributeError (msg : string)
  | KeyError (key : pyval)
  | IndexError
  | TypeError
  | AssertionError
  | OverflowError
  | ZeroDivisionError
  | StructError
  | JSONDecodeError.

Inductive result (A : Type) :=
  | Ok (a : A)
  | Raise (e : exn).
Arguments Ok {A} a.
Arguments Raise {A} e.

#[global] Instance result_ret : MRet result := λ A a, Ok a.
#[global] Instance result_bind : MBind result := λ A B f r,
  match r with
  | Ok a => f a
  | Raise e => Raise e
  end.

(** ** Numbers *)

(** A float that an integer division returns: [mantissa * 2 ^ exponent]. *)
Record float64 := F64 {
  mantissa : Z;
  exponent : Z
}.

(** The integer nearest to [n / d], ties to the even one ([0 <= n],
    [0 < d]). *)
Definition round_half_even (n d : Z) : Z :=
  let q := n / d in
  let r := n mod d in
  if 2 * r <? d then q
  else if d <? 2 * r then q + 1
  else if Z.even q then q else q + 1.

(** [a / (b * 2 ^ e)] as a fraction of integers. *)
Definition scaled (a b e : Z) : Z * Z :=
  if 0 <=? e then (a, b * 2 ^ e) else (a * 2 ^ (- e), b).

(** The exponent [e] for which [2 ^ 52 <= a / (b * 2 ^ e) < 2 ^ 53]
    ([0 < a], [0 < b]). *)
Definition binade (a b : Z) : Z :=
  let e0 := Z.log2 a - Z.log2 b - 53 in
  let '(n, d) := scaled a b e0 in
  if 2 ^ 53 * d <=? n then e0 + 1 else e0.

(** [a / b] for positive ints: 53 bits of mantissa, the exponent no smaller
    than that of the subnormal floats, [OverflowError] from [2 ^ 1024]. *)
Definition truediv_pos (a b : Z) : result float64 :=
  let e := Z.max (binade a b) (-1074) in
  let '(n, d) := scaled a b e in
  let m := round_half_even n d in
  if 2 ^ 1024 <=? m * 2 ^ e then Raise OverflowError else Ok (F64 m e).

(** [a / b] on two ints: true division, a float. *)
Definition py_truediv (a b : Z) : result float64 :=
  if b =? 0 then Raise ZeroDivisionError
  else if a =? 0 then Ok (F64 0 0)
  else
    x ← truediv_pos (Z.abs a) (Z.abs b);
    Ok (if Z.sgn a * Z.sgn b <? 0 then F64 (- mantissa x) (exponent x) else x).

(** [int(x)] on the float of a division: truncation towards zero. *)
Definition py_int_float64 (x : float64) : Z :=
  if 0 <=? exponent x then mantissa x * 2 ^ exponent x
  else mantissa x ÷ 2 ^ (- exponent x).

(** The platform's floats: the rounding of a real result to the float that
    is stored, and the library's sine. *)
Record binary64 := Binary64 {
  rnd : R → R;
  fsin : R → R
}.

(** Half the distance from 1 to the next float, and half the least positive
    float. *)
Definition unit_roundoff : R := (/ IZR (2 ^ 53))%R.
Definition half_least : R := (/ IZR (2 ^ 1075))%R.

(** What is assumed of the platform.  [rnd] rounds to nearest: it keeps the
    order, leaves the integers up to [2 ^ 53] as they are, and moves a real
    by no more than half a unit in its last place (by no more than half the
    least float, near 0).  The library's sine is exact at 0, stays within
    [-1, 1] and is within [2 ^ -52] of the real sine. *)
Record binary64_ok (fp : binary64) : Prop := Binary64_ok {
  rnd_mono : ∀ x y : R, (x <= y)%R → (rnd fp x <= rnd fp y)%R;
  rnd_int : ∀ n : Z, Z.abs n <= 2 ^ 53 → rnd fp (IZR n) = IZR n;
  rnd_error : ∀ x : R,
    (Rabs (rnd fp x - x) <= unit_roundoff * Rabs x + half_least)%R;
  fsin_0 : fsin fp 0%R = 0%R;
  fsin_range : ∀ x : R, (-1 <= fsin fp x <= 1)%R;
  fsin_error : ∀ x : R, (Rabs (fsin fp x - sin x) <= 2 * unit_roundoff)%R
}.

(** Arithmetic that never rounds, on the real numbers themselves: the
    platform of the examples. *)
Definition exact : binary64 := Binary64 (λ x, x) sin.

(** [int(x)] on a float: truncation towards zero. *)
Definition py_int (x : R) : Z :=
  if Rle_dec 0 x then Zfloor x else Zceil x.

(** [range(n)]: empty when [n] is not positive. *)
Definition py_range (n : Z) : list Z :=
  map Z.of_nat (seq 0 (Z.to_nat n)).
(** [v[i]] for a non-negative index [i]. *)
Definition py_getitem (v : pyval) (i : nat) : result pyval :=
  match v with
  | PList l | PTuple l =>
      match l !! i with
      | Some x => Ok x
      | None => Raise IndexError
      end
  | PStr s =>
      match String.get i s with
      | Some c => Ok (PStr (String c EmptyString))
      | None => Raise IndexError
      end
  | PDict _ => Raise (KeyError (PInt (Z.of_nat i)))
  | _ => Raise TypeError
  end.

(** [for x in v]: the values the loop visits. *)
Definition py_iter (v : pyval) : result (list pyval) :=
  match v with
  | PList l | PTuple l | PSet l => Ok l
  | PStr s => Ok ((λ c, PStr (String c EmptyString)) <$> String.list_ascii_of_string s)
  | PDict l => Ok ((λ kv, PStr kv.1) <$> l)
  | _ => Raise TypeError
  end.

(** Whether [hash(v)] succeeds. *)
Fixpoint hashable (v : pyval) : bool :=
  match v with
  | PList _ | PSet _ | PDict _ => false
  | PTuple l => forallb hashable l
  | _ => true
  end.

(** [FREQUENCY_MAP[key]]: every key of the table is a string, so no other
    value is found in it. *)
Definition FREQUENCY_MAP_getitem (key : pyval) : result (Z * Z) :=
  if hashable key then
    match key with
    | PStr k =>
        match FREQUENCY_MAP !! k with
        | Some freqs => Ok freqs
        | None => Raise (KeyError key)
        end
    | _ => Raise (KeyError key)
    end
  else Raise TypeError.

(** ** The tone synthesiser *)

(** [int(SAMPLE_RATE * _duration_in_ms / 1000)].  On an int (or a bool, which
    is one) the product is exact and the division is that of two ints; on a
    float both operations round, and [int] raises on the infinity an
    overflowing product leaves; on anything else [/] raises [TypeError]. *)
Definition number_of_samples (fp : binary64) (_duration_in_ms : pyval) : result Z :=
  match _duration_in_ms with
  | PInt d => x ← py_truediv (SAMPLE_RATE * d) 1000; Ok (py_int_float64 x)
  | PBool b => x ← py_truediv (SAMPLE_RATE * Z.b2z b) 1000; Ok (py_int_float64 x)
  | PFloat x =>
      let y := rnd fp (IZR SAMPLE_RATE * x) in
      if Rle_dec (IZR (2 ^ 1024)) (Rabs y) then Raise OverflowError
      else Ok (py_int (rnd fp (y / 1000)))
  | _ => Raise TypeError
  end.

Definition scale : Z := 32767.

(** The float whose truncation is appended for index [i]:
    [(sin(p * f1 * pi * 2) + sin(p * f2 * pi * 2)) / 2 * scale]
    with [p = i * 1.0 / SAMPLE_RATE], every operation rounded; [pi] is the
    float nearest to the real constant. *)
Definition tone_value (fp : binary64) (f1 f2 i : Z) : R :=
  let p := rnd fp (rnd fp (rnd fp (IZR i) * 1) / IZR SAMPLE_RATE) in
  let pi := rnd fp PI in
  let s1 := fsin fp (rnd fp (rnd fp (rnd fp (p * rnd fp (IZR f1)) * pi) * 2)) in
  let s2 := fsin fp (rnd fp (rnd fp (rnd fp (p * rnd fp (IZR f2)) * pi) * 2)) in
  rnd fp (rnd fp (rnd fp (s1 + s2) / 2) * IZR scale).

Definition tone_sample (fp : binary64) (f1 f2 i : Z) : Z :=
  py_int (tone_value fp f1 f2 i).

Definition in_freq (f : Z) (table : list Z) : bool :=
  bool_decide (f ∈ table) || bool_decide (f = 0).

Definition generate_tone (fp : binary64) (f1 f2 : Z) (_duration_in_ms : pyval) :
    result (list Z) :=
  if negb (in_freq f1 ROW_FREQ) then Raise AssertionError
  else if negb (in_freq f2 COL_FREQ) then Raise AssertionError
  else
    number_of_samples ← number_of_samples fp _duration_in_ms;
    Ok (tone_sample fp f1 f2 <$> py_range number_of_samples).

(** ** Binary packing and the wave container *)

Definition byte_of_Z (z : Z) : Byte.byte :=
  default Byte.x00 (Byte.of_N (Z.to_N (z mod 256))).

(** [struct.pack('i', i)]: a native C int, four bytes, two's complement
    (little-endian byte order, as on x86 and ARM hosts);
    [struct.error] outside the range of a C int. *)
Definition struct_pack_i (i : Z) : result (list Byte.byte) :=
  if bool_decide (- 2 ^ 31 <= i < 2 ^ 31) then
    Ok [byte_of_Z i; byte_of_Z (i ≫ 8); byte_of_Z (i ≫ 16); byte_of_Z (i ≫ 24)]
  else Raise StructError.

(** What a [wave.Wave_write] object has been told and given: the header
    parameters set on it ([nframes] is the argument of [setnframes]) and the
    frame bytes written through it. *)
Record wave_file := WaveFile {
  nchannels : Z;
  sampwidth : Z;
  framerate : Z;
  nframes : Z;
  comptype : string;
  compname : string;
  frames : list Byte.byte
}.

(** The frame count the closed file declares: after every [writeframes] the
    library patches the header to the bytes written so far, so a reader
    finds as many frames as the frame bytes hold at the declared width. *)
Definition frames_on_file (w : wave_file) : Z :=
  Z.of_nat (length (frames w)) / (nchannels w * sampwidth w).

Definition empty_wave : wave_file := WaveFile 0 0 0 0 "" "" [].

Definition setnchannels (n : Z) (w : wave_file) : wave_file :=
  WaveFile n (sampwidth w) (framerate w) (nframes w) (comptype w) (compname w) (frames w).
Definition setsampwidth (n : Z) (w : wave_file) : wave_file :=
  WaveFile (nchannels w) n (framerate w) (nframes w) (comptype w) (compname w) (frames w).
Definition setframerate (n : Z) (w : wave_file) : wave_file :=
  WaveFile (nchannels w) (sampwidth w) n (nframes w) (comptype w) (compname w) (frames w).
Definition setnframes (n : Z) (w : wave_file) : wave_file :=
  WaveFile (nchannels w) (sampwidth w) (framerate w) n (comptype w) (compname w) (frames w).
Definition setcomptype (t name : string) (w : wave_file) : wave_file :=
  WaveFile (nchannels w) (sampwidth w) (framerate w) (nframes w) t name (frames w).
Definition writeframes (data : list Byte.byte) (w : wave_file) : wave_file :=
  WaveFile (nchannels w) (sampwidth w) (framerate w) (nframes w) (comptype w) (compname w)
           (frames w ++ data).

Inductive file :=
  | Wave (w : wave_file)
  | Text (s : string).

(** ** The instance and the world it lives in *)

Record DTMF := mkDTMF {
  _dtmf_sequence : pyval;
  _raw_data : option (list Z)
}.

Record world := World {
  self : DTMF;
  files : gmap string file
}.

(** State and exceptions: a computation returns its result, or the exception
    it raised, together with the state it left. *)
Definition M (A : Type) : Type := world → result A * world.

#[global] Instance M_ret : MRet M := λ A a w, (Ok a, w).
#[global] Instance M_bind : MBind M := λ A B f m w,
  match m w with
  | (Ok a, w') => f a w'
  | (Raise e, w') => (Raise e, w')
  end.

Definition lift {A} (r : result A) : M A := λ w, (r, w).
Definition raise {A} (e : exn) : M A := lift (Raise e).
Definition get_self : M DTMF := λ w, (Ok (self w), w).
Definition set_dtmf_sequence (v : pyval) : M unit :=
  λ w, (Ok (), World (mkDTMF v (_raw_data (self w))) (files w)).
Definition set_raw_data (d : option (list Z)) : M unit :=
  λ w, (Ok (), World (mkDTMF (_dtmf_sequence (self w)) d) (files w)).
Definition update_files (f : gmap string file → gmap string file) : M unit :=
  λ w, (Ok (), World (self w) (f (files w))).

(** [for x in l: body(x)] *)
Fixpoint for_each {A} (l : list A) (body : A → M unit) : M unit :=
  match l with
  | [] => mret ()
  | x :: l' => body x;; for_each l' body
  end.

(** Operations of an open [Wave_write] object on the file at [path]. *)
Definition wave_open (path : string) : M unit :=
  update_files (insert path (Wave empty_wave)).
Definition on_wave (path : string) (f : wave_file → wave_file) : M unit :=
  update_files (alter (λ x, match x with Wave w => Wave (f w) | Text s => Text s end) path).

(** [str(d)] for an int. *)
Definition py_str (d : Z) : string := NilZero.string_of_int (Z.to_int d).

Definition append_text (path : string) (s : string) : M unit :=
  update_files (alter (λ x, match x with Text t => Text (t +:+ s) | Wave w => Wave w end) path).

(** ** class DTMF *)

Definition VALID_SEQUENCE_TYPES : list pytype := [TList; TTuple; TSet].

(** The [for item in input_list] loop of [dtmf_sequence_is_valid]; [or]
    evaluates [item[1]] only when [item[0]] is a string, and the two calls
    of [log.debug] before [return False] evaluate [item[0]] and [item[1]]
    again. *)
Fixpoint check_items (input_list : list pyval) : result bool :=
  match input_list with
  | [] => Ok true
  | item :: rest =>
      x0 ← py_getitem item 0;
      wrong ← (if bool_decide (type_of x0 ≠ TStr) then Ok true
               else x1 ← py_getitem item 1; Ok (bool_decide (type_of x1 ≠ TInt)));
      if (wrong : bool) then
        _ ← py_getitem item 0;
        _ ← py_getitem item 1;
        Ok false
      else check_items rest
  end.

Definition dtmf_sequence_is_valid (input_list : pyval) : result bool :=
  if bool_decide (type_of input_list ≠ TList) then Ok false
  else
    items ← py_iter input_list;
    if bool_decide
         (count_occ Bool.bool_dec
            ((λ item, bool_decide (type_of item ∈ VALID_SEQUENCE_TYPES)) <$> items)
            false ≠ 0%nat)
    then Ok false
    else check_items items.

(** The getter of the [dtmf_sequence] property. *)
Definition dtmf_sequence : M pyval :=
  s ← get_self;
  mret (_dtmf_sequence s).

Section WithPlatform.

(** The floats and [json.loads] belong to the platform and to the Python
    library; the class only relies on [json.loads] returning a value or
    raising. *)
Variable fp : binary64.
Variable json_loads : string → result pyval.

(** The [for tone_tuple in self._dtmf_sequence] loop of [generate_raw_data],
    with its accumulator [_data]. *)
Fixpoint assemble (sequence : list pyval) (_data : list Z) : result (list Z) :=
  match sequence with
  | [] => Ok _data
  | tone_tuple :: rest =>
      key ← py_getitem tone_tuple 0;
      tone_duration ← py_getitem tone_tuple 1;
      freqs ← FREQUENCY_MAP_getitem key;
      let f1 := freqs.1 in
      let f2 := freqs.2 in
      tone ← generate_tone fp f1 f2 tone_duration;
      assemble rest (_data ++ tone)
  end.

Definition generate_raw_data : M unit :=
  let _data := [] in
  s ← get_self;
  match _dtmf_sequence s with
  | PNone => raise (AttributeError "No dtmf sequence set")
  | sequence =>
      items ← lift (py_iter sequence);
      _data ← lift (assemble items _data);
      set_raw_data (Some _data)
  end.

Definition save_wave_file (file_path : string) : M unit :=
  s ← get_self;
  (match _raw_data s with
   | None => generate_raw_data
   | Some d => if bool_decide (Z.of_nat (length d) < 1) then generate_raw_data else mret ()
   end);;
  wave_open file_path;;
  on_wave file_path (setnchannels NUMBER_OF_CHANNELS);;
  on_wave file_path (setsampwidth SAMPLE_WIDTH);;
  on_wave file_path (setframerate SAMPLE_RATE);;
  s ← get_self;
  n ← lift (match _raw_data s with
            | Some d => Ok (Z.of_nat (length d))
            | None => Raise TypeError
            end);
  on_wave file_path (setnframes n);;
  on_wave file_path (setcomptype COMPRESSION_TYPE COMPRESSION_NAME);;
  for_each (default [] (_raw_data s))
    (λ i, packed ← lift (struct_pack_i i); on_wave file_path (writeframes packed)).

Definition parse_json_string (input_string : pyval) : result pyval :=
  match input_string with
  | PStr s => json_loads s
  | _ => Raise TypeError
  end.

(** The setter of the [dtmf_sequence] property. *)
Definition dtmf_sequence_setter (input_sequence : pyval) : M unit :=
  input_sequence ←
    (if bool_decide (type_of input_sequence = TStr)
     then lift (parse_json_string input_sequence)
     else mret input_sequence);
  if bool_decide (type_of input_sequence = TList) then
    valid ← lift (dtmf_sequence_is_valid input_sequence);
    if (valid : bool) then set_dtmf_sequence input_sequence else mret ()
  else mret ().

Definition __init__ (input_string input_list : pyval) : M unit :=
  set_dtmf_sequence PNone;;
  set_raw_data None;;
  if negb (is_None input_string) then
    converted_json_sequence ← lift (parse_json_string input_string);
    dtmf_sequence_setter converted_json_sequence
  else if negb (is_None input_list) then
    dtmf_sequence_setter input_list
  else mret ().

(** [create_dtmf_wave_file]; the [try: os.remove(...) except: pass] block
    deletes the dump when it is there. *)
Definition create_dtmf_wave_file
    (input_sequence : pyval) (file_path : string) (dump_to_csv : bool) : M unit :=
  dtmf_sequence_setter input_sequence;;
  generate_raw_data;;
  update_files (delete "dtmf_dump.csv");;
  (if dump_to_csv then
     update_files (insert "dtmf_dump.csv" (Text ""));;
     s ← get_self;
     match _raw_data s with
     | Some data =>
         for_each data (λ d,
           append_text "dtmf_dump.csv" (py_str d);;
           append_text "dtmf_dump.csv" ",")
     | None => raise TypeError
     end
   else mret ());;
  save_wave_file file_path.

(** The script run under [if __name__ == '__main__']. *)
Definition sample_input : pyval :=
  let d := 100 in
  PList [PTuple [PStr "1"; PInt d]; PTuple [PStr "S"; PInt d];
         PTuple [PStr "2"; PInt d]; PTuple [PStr "S"; PInt d];
         PTuple [PStr "A"; PInt d]; PTuple [PStr "S"; PInt d]].

Definition main : M unit :=
  __init__ PNone PNone;;
  create_dtmf_wave_file sample_input "test.wav" true.

End WithPlatform.

Arguments parse_json_string json_loads input_string : assert.

(** * Properties *)

(** ** Division of two ints *)

Lemma round_half_even_bounds (n d : Z) :
  0 <= n → 0 < d →
  n / d <= round_half_even n d <= n / d + 1 ∧
  2 * d * round_half_even n d <= 2 * n + d ∧
  2 * n - d <= 2 * d * round_half_even n d.
Proof.
  intros Hn Hd. unfold round_half_even.
  pose proof (Z.div_mod n d ltac:(lia)) as Hdm.
  pose proof (Z.mod_pos_bound n d Hd) as Hr.
  destruct (2 * (n mod d) <? d) eqn:H1; [apply Z.ltb_lt in H1; lia|].
  apply Z.ltb_ge in H1.
  destruct (d <? 2 * (n mod d)) eqn:H2; [apply Z.ltb_lt in H2; lia|].
  apply Z.ltb_ge in H2.
  destruct (Z.even (n / d)); lia.
Qed.

Lemma pow2_pos (e : Z) : 0 <= e → 0 < 2 ^ e.
Proof. intros He. apply Z.pow_pos_nonneg; lia. Qed.

(** The exponent [binade] picks leaves 53 bits before the point. *)
Lemma binade_spec (a b n d : Z) :
  0 < a → 0 < b →
  scaled a b (binade a b) = (n, d) →
  0 < d ∧ 2 ^ 52 * d <= n < 2 ^ 53 * d.
Proof.
  intros Ha Hb. unfold binade.
  pose proof (Z.log2_spec a Ha) as [Ha1 Ha2].
  pose proof (Z.log2_spec b Hb) as [Hb1 Hb2].
  pose proof (Z.log2_nonneg a) as Hla. pose proof (Z.log2_nonneg b) as Hlb.
  rewrite Z.pow_succ_r in Ha2, Hb2 by assumption.
  set (la := Z.log2 a) in *. set (lb := Z.log2 b) in *.
  set (e0 := la - lb - 53).
  change (2 ^ 52) with 4503599627370496. change (2 ^ 53) with 9007199254740992.
  destruct (scaled a b e0) as [n0 d0] eqn:Hs0.
  unfold scaled in Hs0.
  destruct (0 <=? e0) eqn:He0.
  - apply Z.leb_le in He0. injection Hs0 as <- <-.
    assert (HA : 2 ^ la = 2 ^ e0 * 2 ^ lb * 9007199254740992).
    { replace la with (e0 + lb + 53) by (unfold e0; lia).
      rewrite !Z.pow_add_r by lia. reflexivity. }
    pose proof (pow2_pos e0 He0) as HE. pose proof (pow2_pos lb Hlb) as HB.
    destruct (9007199254740992 * (b * 2 ^ e0) <=? a) eqn:HT.
    + apply Z.leb_le in HT. unfold scaled.
      rewrite (proj2 (Z.leb_le 0 (e0 + 1))) by lia.
      intros [= <- <-]. rewrite Z.pow_add_r by lia. change (2 ^ 1) with 2. nia.
    + apply Z.leb_gt in HT. unfold scaled.
      rewrite (proj2 (Z.leb_le 0 e0)) by lia.
      intros [= <- <-]. nia.
  - apply Z.leb_gt in He0. injection Hs0 as <- <-.
    assert (HA : 2 ^ lb * 9007199254740992 = 2 ^ la * 2 ^ (- e0)).
    { replace (2 ^ lb * 9007199254740992) with (2 ^ (lb + 53))
        by (rewrite Z.pow_add_r by lia; reflexivity).
      rewrite <- Z.pow_add_r by lia. f_equal. unfold e0. lia. }
    pose proof (pow2_pos (- e0) ltac:(lia)) as HS. pose proof (pow2_pos la Hla) as HAp.
    destruct (9007199254740992 * b <=? a * 2 ^ (- e0)) eqn:HT.
    + apply Z.leb_le in HT. unfold scaled.
      assert (HS2 : 2 ^ (- e0) = 2 * 2 ^ (- (e0 + 1))).
      { replace (- e0) with (1 + - (e0 + 1)) by lia.
        rewrite Z.pow_add_r by lia. reflexivity. }
      destruct (0 <=? e0 + 1) eqn:He1.
      * apply Z.leb_le in He1. assert (He : e0 + 1 = 0) by lia.
        rewrite He in *. change (2 ^ 0) with 1. change (2 ^ (- 0)) with 1 in HS2.
        intros [= <- <-]. nia.
      * apply Z.leb_gt in He1. intros [= <- <-].
        pose proof (pow2_pos (- (e0 + 1)) ltac:(lia)). nia.
    + apply Z.leb_gt in HT. unfold scaled.
      rewrite (proj2 (Z.leb_gt 0 e0)) by lia.
      intros [= <- <-]. nia.
Qed.

Lemma pow2_ge (s k : Z) : 0 <= k <= s → 2 ^ k <= 2 ^ s.
Proof. intros H. apply Z.pow_le_mono_r; lia. Qed.

(** Below [2 ^ 52] the quotient by 1000 is scaled up before it is rounded. *)
Lemma binade_1000_small (a : Z) :
  0 < a → a < 1000 * 2 ^ 52 →
  -63 < binade a 1000 < 0 ∧
  2 ^ 52 * 1000 <= a * 2 ^ (- binade a 1000) < 2 ^ 53 * 1000.
Proof.
  intros Ha Hlt.
  destruct (scaled a 1000 (binade a 1000)) as [n d] eqn:Hs.
  pose proof (binade_spec a 1000 n d Ha ltac:(lia) Hs) as (Hd & Hlo & Hhi).
  unfold scaled in Hs. set (eb := binade a 1000) in *.
  change (2 ^ 52) with 4503599627370496 in *. change (2 ^ 53) with 9007199254740992 in *.
  destruct (0 <=? eb) eqn:He.
  - apply Z.leb_le in He. injection Hs as <- <-.
    pose proof (pow2_pos eb He). nia.
  - apply Z.leb_gt in He. injection Hs as <- <-.
    split; [|lia]. split; [|lia].
    destruct (Z.le_gt_cases (- eb) 62) as [|Hbig]; [lia|].
    pose proof (pow2_ge (- eb) 63 ltac:(lia)) as Hp.
    change (2 ^ 63) with 9223372036854775808 in Hp. nia.
Qed.

Lemma mod_1000_of_multiple_of_100 (a : Z) : a mod 100 = 0 → a mod 1000 <= 900.
Proof.
  intros H. apply Z.mod_divide in H; [|lia]. destruct H as [k ->].
  replace (k * 100) with (100 * k) by lia.
  change 1000 with (100 * 10). rewrite Z.mul_mod_distr_l by lia.
  pose proof (Z.mod_pos_bound k 10 ltac:(lia)). lia.
Qed.

(** Up to [2 ^ 50] the division by 1000 of a multiple of 100 truncates to
    the exact quotient: the rounding cannot reach the next integer. *)
Lemma truediv_pos_exact (a : Z) :
  0 < a → a mod 100 = 0 → a < 1000 * 2 ^ 50 →
  ∃ x, truediv_pos a 1000 = Ok x ∧ py_int_float64 x = a / 1000.
Proof.
  intros Ha H100 Hlt.
  change (2 ^ 50) with 1125899906842624 in Hlt.
  destruct (binade_1000_small a Ha) as ((He1 & He2) & Hlo & Hhi).
  { change (2 ^ 52) with 4503599627370496. lia. }
  unfold truediv_pos. set (eb := binade a 1000) in *.
  rewrite Z.max_l by lia.
  unfold scaled. rewrite (proj2 (Z.leb_gt 0 eb)) by lia.
  rewrite (Z.pow_neg_r 2 eb) by lia. rewrite Z.mul_0_r.
  change (2 ^ 1024 <=? 0) with false. cbv iota.
  eexists. split; [reflexivity|].
  unfold py_int_float64. cbn [mantissa exponent].
  rewrite (proj2 (Z.leb_gt 0 eb)) by lia.
  set (S := 2 ^ (- eb)) in *.
  change (2 ^ 52) with 4503599627370496 in *. change (2 ^ 53) with 9007199254740992 in *.
  assert (HS : 8 <= S).
  { destruct (Z.le_gt_cases 3 (- eb)) as [H3|H3].
    - exact (pow2_ge (- eb) 3 ltac:(lia)).
    - pose proof (pow2_ge 2 (- eb) ltac:(lia)) as Hp. fold S in Hp.
      change (2 ^ 2) with 4 in Hp. nia. }
  pose proof (round_half_even_bounds (a * S) 1000 ltac:(nia) ltac:(lia))
    as ((Hm1 & _) & Hm2 & _).
  set (m := round_half_even (a * S) 1000) in *.
  pose proof (Z.div_mod a 1000 ltac:(lia)) as Hdm.
  pose proof (Z.mod_pos_bound a 1000 ltac:(lia)) as Hr.
  pose proof (mod_1000_of_multiple_of_100 a H100) as Hr9.
  set (n0 := a / 1000) in *. set (r0 := a mod 1000) in *.
  assert (Hlow : n0 * S <= (a * S) / 1000).
  { apply Z.div_le_lower_bound; [lia|]. nia. }
  assert (Hn0 : 0 <= n0) by (apply Z.div_pos; lia).
  assert (Hn0S : 0 <= n0 * S) by (apply Z.mul_nonneg_nonneg; lia).
  assert (HrS : r0 * S <= 900 * S) by (apply Z.mul_le_mono_nonneg_r; lia).
  assert (HaS : a * S = 1000 * (n0 * S) + r0 * S) by (rewrite Hdm; ring).
  rewrite Z.quot_div_nonneg by lia.
  symmetry. apply (Z.div_unique m S n0 (m - S * n0)); [|lia].
  left. lia.
Qed.

Lemma scaled_pos (a b e n d : Z) :
  0 < a → 0 < b → scaled a b e = (n, d) → 0 < n ∧ 0 < d.
Proof.
  intros Ha Hb. unfold scaled. destruct (0 <=? e) eqn:He; intros [= <- <-].
  - apply Z.leb_le in He. pose proof (pow2_pos e He). nia.
  - apply Z.leb_gt in He. pose proof (pow2_pos (- e) ltac:(lia)). nia.
Qed.

Lemma truediv_pos_raises (a b : Z) (e : exn) :
  truediv_pos a b = Raise e → e = OverflowError.
Proof.
  unfold truediv_pos. destruct (scaled a b _) as [n d].
  destruct (2 ^ 1024 <=? _); [|discriminate]. intros [= <-]. reflexivity.
Qed.

Lemma truediv_pos_mantissa (a b : Z) (x : float64) :
  0 < a → 0 < b → truediv_pos a b = Ok x → 0 <= mantissa x.
Proof.
  intros Ha Hb. unfold truediv_pos.
  destruct (scaled a b _) as [n d] eqn:Hs.
  destruct (scaled_pos _ _ _ _ _ Ha Hb Hs) as [Hn Hd].
  destruct (2 ^ 1024 <=? _); [discriminate|]. intros [= <-]. simpl.
  pose proof (round_half_even_bounds n d ltac:(lia) Hd) as ((Hm & _) & _).
  pose proof (Z.div_pos n d ltac:(lia) Hd). lia.
Qed.

(** No division by 1000 of an int below [2 ^ 1016] overflows. *)
Lemma truediv_pos_in_range (a : Z) :
  0 < a → a < 2 ^ 1016 → ∃ x, truediv_pos a 1000 = Ok x.
Proof.
  intros Ha Hlt. unfold truediv_pos.
  set (e := Z.max (binade a 1000) (-1074)).
  destruct (scaled a 1000 e) as [n d] eqn:Hs.
  destruct (2 ^ 1024 <=? round_half_even n d * 2 ^ e) eqn:Hov; [|eexists; reflexivity].
  exfalso. apply Z.leb_le in Hov.
  destruct (Z.lt_ge_cases e 0) as [Hneg|Hpos].
  - rewrite (Z.pow_neg_r 2 e Hneg), Z.mul_0_r in Hov.
    pose proof (pow2_pos 1024 ltac:(lia)). lia.
  - assert (He : e = binade a 1000) by (unfold e in *; lia).
    rewrite He in Hs.
    pose proof (binade_spec a 1000 n d Ha ltac:(lia) Hs) as (Hd & Hlo & Hhi).
    unfold scaled in Hs. rewrite <- He in Hs.
    rewrite (proj2 (Z.leb_le 0 e) Hpos) in Hs. injection Hs as <- <-.
    pose proof (pow2_pos e Hpos) as HE.
    pose proof (round_half_even_bounds a (1000 * 2 ^ e) ltac:(lia) Hd) as ((_ & Hm) & _).
    assert (Hq : a / (1000 * 2 ^ e) < 2 ^ 53).
    { apply Z.div_lt_upper_bound; lia. }
    set (m := round_half_even a (1000 * 2 ^ e)) in *. set (E := 2 ^ e) in *.
    assert (HmE : m * E <= 2 ^ 53 * E) by (apply Z.mul_le_mono_nonneg_r; lia).
    revert Hov Hlt Hlo HmE.
    change (2 ^ 52) with 4503599627370496. change (2 ^ 53) with 9007199254740992.
    generalize (m * E). intros mE.
    assert (H1016 : 2 ^ 1024 = 256 * 2 ^ 1016) by reflexivity.
    rewrite H1016. generalize (2 ^ 1016). intros C. lia.
Qed.

Lemma py_int_float64_nonneg (x : float64) :
  0 <= mantissa x → 0 <= py_int_float64 x.
Proof.
  intros Hm. unfold py_int_float64. destruct (0 <=? exponent x) eqn:He.
  - apply Z.leb_le in He. pose proof (pow2_pos _ He). nia.
  - apply Z.leb_gt in He. apply Z.quot_pos; [lia|].
    apply pow2_pos. lia.
Qed.

Lemma py_int_float64_opp (m e : Z) :
  py_int_float64 (F64 (- m) e) = - py_int_float64 (F64 m e).
Proof.
  unfold py_int_float64. simpl. destruct (0 <=? e) eqn:He.
  - lia.
  - apply Z.leb_gt in He. apply Z.quot_opp_l.
    pose proof (pow2_pos (- e) ltac:(lia)). lia.
Qed.

(** ** The number of samples *)

(** The durations, in milliseconds, up to which the count is proved to be
    the integer quotient, and up to which the division is proved not to
    overflow.  Neither is tight: the float quotient first truncates to
    another integer beyond [2 ^ 44], and the division first overflows near
    [4 * 10 ^ 306], beyond [2 ^ 1000]. *)
Definition MAX_EXACT_MS : Z := 2 ^ 44.
Definition MAX_MS : Z := 2 ^ 1000.

(** Up to [2 ^ 44] ms the count is the quotient of [44100 * d] by 1000. *)
Lemma number_of_samples_exact (fp : binary64) (d : Z) :
  0 <= d <= MAX_EXACT_MS →
  number_of_samples fp (PInt d) = Ok ((SAMPLE_RATE * d) ÷ 1000).
Proof.
  unfold MAX_EXACT_MS. change (2 ^ 44) with 17592186044416.
  intros Hd. unfold number_of_samples, py_truediv, SAMPLE_RATE.
  change (1000 =? 0) with false. cbv iota.
  destruct (44100 * d =? 0) eqn:H0.
  - apply Z.eqb_eq in H0. assert (d = 0) as -> by lia. reflexivity.
  - apply Z.eqb_neq in H0.
    destruct (truediv_pos_exact (44100 * d)) as (x & Hx & Hi).
    + lia.
    + replace (44100 * d) with (441 * d * 100) by lia. apply Z.mod_mul. lia.
    + change (2 ^ 50) with 1125899906842624. lia.
    + rewrite Z.abs_eq by lia. change (Z.abs 1000) with 1000. rewrite Hx.
      cbn [mbind result_bind].
      rewrite Z.sgn_pos by lia. change (1 * Z.sgn 1000 <? 0) with false. cbv iota.
      rewrite Hi. rewrite Z.quot_div_nonneg by lia. reflexivity.
Qed.

(** Up to [2 ^ 1000] ms either way the division does not overflow, and the
    count has the sign of the duration. *)
Lemma number_of_samples_in_range (fp : binary64) (d : Z) :
  - MAX_MS <= d <= MAX_MS →
  ∃ n, number_of_samples fp (PInt d) = Ok n ∧ (0 <= d → 0 <= n) ∧ (d <= 0 → n <= 0).
Proof.
  unfold MAX_MS. intros Hd.
  assert (Habs : Z.abs (44100 * d) < 2 ^ 1016).
  { assert (HC : 2 ^ 1016 = 65536 * 2 ^ 1000) by reflexivity.
    rewrite HC. pose proof (pow2_pos 1000 ltac:(lia)) as Hp.
    clear HC. revert Hd Hp. generalize (2 ^ 1000). intros C Hd Hp.
    destruct (Z.abs_spec (44100 * d)) as [[_ ->]|[_ ->]]; lia. }
  unfold number_of_samples, py_truediv, SAMPLE_RATE.
  change (1000 =? 0) with false. cbv iota.
  destruct (44100 * d =? 0) eqn:H0.
  - apply Z.eqb_eq in H0. exists 0. split; [reflexivity|]. lia.
  - apply Z.eqb_neq in H0. change (Z.abs 1000) with 1000.
    assert (Hpos : 0 < Z.abs (44100 * d)) by lia.
    destruct (truediv_pos_in_range (Z.abs (44100 * d)) Hpos Habs) as [x Hx].
    pose proof (truediv_pos_mantissa _ 1000 x Hpos ltac:(lia) Hx) as Hm.
    pose proof (py_int_float64_nonneg x Hm) as Hi.
    rewrite Hx. cbn [mbind result_bind].
    clear Habs Hd Hx.
    destruct (Z.lt_ge_cases d 0) as [Hneg|Hnn].
    + rewrite Z.sgn_neg by lia. change (-1 * Z.sgn 1000 <? 0) with true. cbv iota.
      eexists. split; [reflexivity|]. rewrite py_int_float64_opp.
      destruct x as [m e]. simpl mantissa. simpl exponent. lia.
    + rewrite Z.sgn_pos by lia. change (1 * Z.sgn 1000 <? 0) with false. cbv iota.
      eexists. split; [reflexivity|]. lia.
Qed.

Lemma number_of_samples_raises (fp : binary64) (v : pyval) (e : exn) :
  number_of_samples fp v = Raise e → e = OverflowError ∨ e = TypeError.
Proof.
  assert (Hdiv : ∀ a, (x ← py_truediv a 1000; Ok (py_int_float64 x)) = Raise e →
                      e = OverflowError).
  { intros a. unfold py_truediv. change (1000 =? 0) with false. cbv iota.
    destruct (a =? 0); [discriminate|].
    destruct (truediv_pos _ _) as [x|e'] eqn:Hx; cbn [mbind result_bind]; [discriminate|].
    intros [= <-]. exact (truediv_pos_raises _ _ _ Hx). }
  destruct v; simpl; try (intros [= <-]; right; reflexivity).
  - intros H. left. exact (Hdiv _ H).
  - intros H. left. exact (Hdiv _ H).
  - destruct (Rle_dec _ _); [|discriminate]. intros [= <-]. left. reflexivity.
Qed.

Lemma number_of_samples_int_raises (fp : binary64) (d : Z) (e : exn) :
  number_of_samples fp (PInt d) = Raise e → e = OverflowError.
Proof.
  unfold number_of_samples, py_truediv. change (1000 =? 0) with false. cbv iota.
  destruct (SAMPLE_RATE * d =? 0); [discriminate|].
  destruct (truediv_pos _ _) as [x|e'] eqn:Hx; cbn [mbind result_bind]; [discriminate|].
  intros [= <-]. exact (truediv_pos_raises _ _ _ Hx).
Qed.

(** ** Truncation of a float *)

Section Numbers.
Local Open Scope R_scope.

Lemma py_int_IZR (z : Z) : py_int (IZR z) = z.
Proof.
  unfold py_int. destruct (Rle_dec 0 (IZR z)).
  - apply ZfloorZ.
  - unfold Zceil. rewrite <- opp_IZR, ZfloorZ. lia.
Qed.

Lemma py_int_0 : py_int 0 = 0%Z.
Proof. apply (py_int_IZR 0). Qed.

(** Truncation never leaves an interval with integer end points. *)
Lemma py_int_bounds (x : R) (n : Z) :
  - IZR n <= x <= IZR n → (- n <= py_int x <= n)%Z.
Proof.
  intros [Hlo Hhi]. unfold py_int.
  destruct (Rle_dec 0 x) as [H0|H0].
  - pose proof (Zfloor_bound x) as [Hf _].
    split.
    + assert (0 <= Zfloor x)%Z by (apply Zfloor_lub; exact H0).
      assert (0 <= n)%Z by (apply le_IZR; lra). lia.
    + apply le_IZR. lra.
  - pose proof (Zceil_bound x) as [_ Hc].
    assert (Hx : x < 0) by lra.
    split.
    + apply le_IZR. rewrite opp_IZR. lra.
    + assert (Zceil x <= 0)%Z.
      { unfold Zceil.
        assert (0 <= Zfloor (- x))%Z by (apply Zfloor_lub; lra). lia. }
      assert (0 <= n)%Z by (apply le_IZR; lra). lia.
Qed.

(** Truncation is within one of its argument. *)
Lemma py_int_near (x : R) : Rabs (IZR (py_int x) - x) < 1.
Proof.
  unfold py_int. destruct (Rle_dec 0 x) as [H0|H0].
  - pose proof (Zfloor_bound x) as [Hf1 Hf2].
    apply Rabs_def1; lra.
  - pose proof (Zceil_bound x) as [Hc1 Hc2].
    apply Rabs_def1; lra.
Qed.


End Numbers.

(** ** The platform's floats *)

Section Floats.
Local Open Scope R_scope.

Lemma unit_roundoff_pos : 0 < unit_roundoff.
Proof. unfold unit_roundoff. apply Rinv_0_lt_compat, IZR_lt. reflexivity. Qed.

Lemma half_least_pos : 0 < half_least.
Proof.
  unfold half_least. apply Rinv_0_lt_compat, IZR_lt.
  apply (Z.pow_pos_nonneg 2 1075); lia.
Qed.


Lemma exact_ok : binary64_ok exact.
Proof.
  pose proof unit_roundoff_pos. pose proof half_least_pos.
  constructor; simpl.
  - intros x y Hxy. exact Hxy.
  - reflexivity.
  - intros x. replace (x - x) with 0 by ring. rewrite Rabs_R0.
    pose proof (Rabs_pos x). nra.
  - apply sin_0.
  - apply SIN_bound.
  - intros x. replace (sin x - sin x) with 0 by ring. rewrite Rabs_R0. lra.
Qed.

Variable fp : binary64.
Hypothesis fp_ok : binary64_ok fp.

Lemma rnd_0 : rnd fp 0 = 0.
Proof. apply (rnd_int fp fp_ok 0). simpl. lia. Qed.

Lemma rnd_IZR_small (n c : Z) :
  (Z.abs n <= c)%Z → (c <= 2 ^ 53)%Z → rnd fp (IZR n) = IZR n.
Proof. intros H1 H2. apply (rnd_int fp fp_ok). lia. Qed.

(** Rounding keeps a value inside an interval whose end points are small
    integers. *)
Lemma rnd_between (x : R) (n : Z) :
  (0 <= n <= 2 ^ 53)%Z → - IZR n <= x <= IZR n → - IZR n <= rnd fp x <= IZR n.
Proof.
  intros Hn [Hlo Hhi]. split.
  - rewrite <- opp_IZR, <- (rnd_int fp fp_ok (- n)) by lia.
    apply (rnd_mono fp fp_ok). rewrite opp_IZR. exact Hlo.
  - rewrite <- (rnd_int fp fp_ok n) by lia.
    apply (rnd_mono fp fp_ok). exact Hhi.
Qed.


End Floats.

(** ** The distance between the computed sample and the real expression *)

(** The sample of index [i] before any rounding, as a real number:
    [(sin(2π·f1·t) + sin(2π·f2·t)) / 2 * SCALE] with [t = i / sampleRate]. *)
Definition spec_tone_value (f1 f2 i : Z) : R :=
  let t := (IZR i / IZR SAMPLE_RATE)%R in
  ((sin (2 * PI * IZR f1 * t) + sin (2 * PI * IZR f2 * t)) / 2 * 32767)%R.

Section ToneError.
Local Open Scope R_scope.

Variable fp : binary64.
Hypothesis fp_ok : binary64_ok fp.








End ToneError.

(** ** The tone synthesiser *)

Lemma length_py_range (n : Z) : length (py_range n) = Z.to_nat n.
Proof. unfold py_range. rewrite length_map, length_seq. reflexivity. Qed.

Lemma lookup_py_range (n : Z) (i : nat) :
  (Z.of_nat i < n) → py_range n !! i = Some (Z.of_nat i).
Proof.
  intros Hi. unfold py_range.
  rewrite list_lookup_fmap, lookup_seq_lt by lia. reflexivity.
Qed.

Lemma py_range_nonpos (n : Z) : n <= 0 → py_range n = [].
Proof.
  intros Hn. unfold py_range. replace (Z.to_nat n) with 0%nat by lia. reflexivity.
Qed.

Lemma elem_of_py_range (n i : Z) : i ∈ py_range n → 0 <= i < n.
Proof.
  unfold py_range. intros Hi. apply list_elem_of_fmap in Hi as (k & -> & Hk).
  apply elem_of_seq in Hk. lia.
Qed.

(** The precondition asserted by [generate_tone]. *)
Definition tone_precondition (f1 f2 : Z) : Prop :=
  (f1 ∈ ROW_FREQ ∨ f1 = 0) ∧ (f2 ∈ COL_FREQ ∨ f2 = 0).

Lemma in_freq_spec (f : Z) (table : list Z) :
  in_freq f table = true ↔ f ∈ table ∨ f = 0.
Proof.
  unfold in_freq. rewrite orb_true_iff, !bool_decide_eq_true. reflexivity.
Qed.

#[global] Instance tone_precondition_dec (f1 f2 : Z) : Decision (tone_precondition f1 f2).
Proof. unfold tone_precondition. apply _. Defined.

(** Under the precondition the asserts pass. *)
Lemma generate_tone_unfold (fp : binary64) (f1 f2 : Z) (v : pyval) :
  tone_precondition f1 f2 →
  generate_tone fp f1 f2 v =
  n ← number_of_samples fp v; Ok (tone_sample fp f1 f2 <$> py_range n).
Proof.
  intros [H1 H2]. unfold generate_tone.
  apply in_freq_spec in H1, H2. rewrite H1, H2. reflexivity.
Qed.

Lemma generate_tone_assert (fp : binary64) (f1 f2 : Z) (v : pyval) :
  ¬ tone_precondition f1 f2 → generate_tone fp f1 f2 v = Raise AssertionError.
Proof.
  intros Hn. unfold generate_tone.
  destruct (in_freq f1 ROW_FREQ) eqn:E1; [|reflexivity].
  destruct (in_freq f2 COL_FREQ) eqn:E2; [|reflexivity].
  exfalso. apply Hn. split; apply in_freq_spec; assumption.
Qed.

(** What a returned buffer is. *)
Lemma generate_tone_inv (fp : binary64) (f1 f2 : Z) (v : pyval) (buf : list Z) :
  generate_tone fp f1 f2 v = Ok buf →
  tone_precondition f1 f2 ∧
  ∃ n, number_of_samples fp v = Ok n ∧ buf = tone_sample fp f1 f2 <$> py_range n.
Proof.
  intros H. destruct (decide (tone_precondition f1 f2)) as [Hpre|Hpre].
  - split; [exact Hpre|]. rewrite generate_tone_unfold in H by exact Hpre.
    destruct (number_of_samples fp v) as [n|e]; [|discriminate].
    injection H as <-. exists n. split; reflexivity.
  - rewrite generate_tone_assert in H by exact Hpre. discriminate.
Qed.

(** The errors of [generate_tone]: a failed assert, a quotient too large
    for a float, a duration that is not a number. *)
Lemma generate_tone_raises (fp : binary64) (f1 f2 : Z) (v : pyval) (e : exn) :
  generate_tone fp f1 f2 v = Raise e →
  e = AssertionError ∨ e = OverflowError ∨ e = TypeError.
Proof.
  intros H. destruct (decide (tone_precondition f1 f2)) as [Hpre|Hpre].
  - rewrite generate_tone_unfold in H by exact Hpre.
    destruct (number_of_samples fp v) as [n|e'] eqn:Hn; [discriminate|].
    injection H as <-. right. exact (number_of_samples_raises fp v e' Hn).
  - rewrite generate_tone_assert in H by exact Hpre. left. congruence.
Qed.

(** Up to [MAX_EXACT_MS] the buffer has the integer quotient for length. *)
Lemma generate_tone_exact (fp : binary64) (f1 f2 d : Z) :
  tone_precondition f1 f2 → 0 <= d <= MAX_EXACT_MS →
  generate_tone fp f1 f2 (PInt d) =
  Ok (tone_sample fp f1 f2 <$> py_range ((SAMPLE_RATE * d) ÷ 1000)).
Proof.
  intros Hpre Hd. rewrite generate_tone_unfold by exact Hpre.
  rewrite number_of_samples_exact by exact Hd. reflexivity.
Qed.

(** Up to [MAX_MS] in magnitude a buffer is returned. *)
Lemma generate_tone_in_range_ok (fp : binary64) (f1 f2 d : Z) :
  tone_precondition f1 f2 → - MAX_MS <= d <= MAX_MS →
  ∃ n, number_of_samples fp (PInt d) = Ok n ∧ (0 <= d → 0 <= n) ∧ (d <= 0 → n <= 0) ∧
       generate_tone fp f1 f2 (PInt d) = Ok (tone_sample fp f1 f2 <$> py_range n).
Proof.
  intros Hpre Hd. destruct (number_of_samples_in_range fp d Hd) as (n & Hn & H1 & H2).
  exists n. repeat split; try assumption.
  rewrite generate_tone_unfold by exact Hpre. rewrite Hn. reflexivity.
Qed.

(** Every pair held by the frequency table satisfies the precondition. *)
Lemma FREQUENCY_MAP_precondition (k : string) (f1 f2 : Z) :
  FREQUENCY_MAP !! k = Some (f1, f2) → tone_precondition f1 f2.
Proof.
  intros Hk.
  assert (Hall : map_Forall (λ _ p, tone_precondition p.1 p.2) FREQUENCY_MAP).
  { apply (bool_decide_unpack _). vm_compute. exact I. }
  exact (Hall k (f1, f2) Hk).
Qed.


Section Tone.
Local Open Scope R_scope.

Variable fp : binary64.
Hypothesis fp_ok : binary64_ok fp.

Lemma tone_value_silence (i : Z) : tone_value fp 0 0 i = 0.
Proof.
  unfold tone_value. cbv zeta.
  rewrite (rnd_0 fp fp_ok), !Rmult_0_r, (rnd_0 fp fp_ok), !Rmult_0_l, (rnd_0 fp fp_ok).
  rewrite !Rmult_0_l, (rnd_0 fp fp_ok), (fsin_0 fp fp_ok), Rplus_0_r, (rnd_0 fp fp_ok).
  unfold Rdiv. rewrite !Rmult_0_l, (rnd_0 fp fp_ok), Rmult_0_l. apply (rnd_0 fp fp_ok).
Qed.

(** At index 0 the phase of both sines is 0. *)
Lemma tone_value_0 (f1 f2 : Z) : tone_value fp f1 f2 0 = 0.
Proof.
  unfold tone_value. cbv zeta.
  rewrite (rnd_0 fp fp_ok), Rmult_0_l, (rnd_0 fp fp_ok).
  unfold Rdiv. rewrite Rmult_0_l, (rnd_0 fp fp_ok), !Rmult_0_l, (rnd_0 fp fp_ok).
  rewrite !Rmult_0_l, (rnd_0 fp fp_ok), !Rmult_0_l, (rnd_0 fp fp_ok).
  rewrite (fsin_0 fp fp_ok), Rplus_0_r, (rnd_0 fp fp_ok), Rmult_0_l, (rnd_0 fp fp_ok).
  rewrite Rmult_0_l. apply (rnd_0 fp fp_ok).
Qed.

Lemma tone_value_bounds (f1 f2 i : Z) :
  - IZR scale <= tone_value fp f1 f2 i <= IZR scale.
Proof.
  unfold tone_value. cbv zeta.
  set (s1 := fsin fp (rnd fp (rnd fp (rnd fp (_ * rnd fp (IZR f1)) * _) * _))).
  set (s2 := fsin fp (rnd fp (rnd fp (rnd fp (_ * rnd fp (IZR f2)) * _) * _))).
  assert (Hs1 : -1 <= s1 <= 1) by apply (fsin_range fp fp_ok).
  assert (Hs2 : -1 <= s2 <= 1) by apply (fsin_range fp fp_ok).
  assert (Hr1 : -2 <= rnd fp (s1 + s2) <= 2).
  { apply (rnd_between fp fp_ok _ 2); [lia|lra]. }
  assert (Hr2 : -1 <= rnd fp (rnd fp (s1 + s2) / 2) <= 1).
  { apply (rnd_between fp fp_ok _ 1); [lia|lra]. }
  unfold scale.
  apply (rnd_between fp fp_ok _ 32767); [lia|lra].
Qed.

End Tone.

Lemma tone_sample_silence (fp : binary64) (i : Z) :
  binary64_ok fp → tone_sample fp 0 0 i = 0.
Proof. intros Hfp. unfold tone_sample. rewrite tone_value_silence by exact Hfp. apply py_int_0. Qed.

Lemma tone_sample_0 (fp : binary64) (f1 f2 : Z) :
  binary64_ok fp → tone_sample fp f1 f2 0 = 0.
Proof. intros Hfp. unfold tone_sample. rewrite tone_value_0 by exact Hfp. apply py_int_0. Qed.

Lemma tone_sample_bounds (fp : binary64) (f1 f2 i : Z) :
  binary64_ok fp → - scale <= tone_sample fp f1 f2 i <= scale.
Proof. intros Hfp. unfold tone_sample. apply py_int_bounds, tone_value_bounds, Hfp. Qed.

(** With arithmetic that never rounds, the value truncated is the real
    expression itself. *)
Lemma tone_value_exact (f1 f2 i : Z) : tone_value exact f1 f2 i = spec_tone_value f1 f2 i.
Proof.
  unfold tone_value, spec_tone_value, scale, exact. cbn [rnd fsin].
  f_equal. f_equal. f_equal; f_equal; unfold Rdiv; ring.
Qed.

(** ** The waveform assembler *)

(** The sub-buffer of one entry: the body of the assembling loop. *)
Definition entry_tone (fp : binary64) (tone_tuple : pyval) : result (list Z) :=
  key ← py_getitem tone_tuple 0;
  tone_duration ← py_getitem tone_tuple 1;
  freqs ← FREQUENCY_MAP_getitem key;
  generate_tone fp freqs.1 freqs.2 tone_duration.

Lemma assemble_cons (fp : binary64) (x : pyval) (rest : list pyval) (acc : list Z) :
  assemble fp (x :: rest) acc = tone ← entry_tone fp x; assemble fp rest (acc ++ tone).
Proof.
  unfold entry_tone. simpl.
  destruct (py_getitem x 0) as [key|]; simpl; [|reflexivity].
  destruct (py_getitem x 1) as [dur|]; simpl; [|reflexivity].
  destruct (FREQUENCY_MAP_getitem key) as [freqs|]; reflexivity.
Qed.

(** When every entry synthesises, the loop yields the sub-buffers joined in
    the order of the entries. *)
Lemma assemble_ok (fp : binary64) (items : list pyval) (bufs : list (list Z))
    (acc : list Z) :
  Forall2 (λ x b, entry_tone fp x = Ok b) items bufs →
  assemble fp items acc = Ok (acc ++ concat bufs).
Proof.
  intros H. revert acc. induction H as [|x b items bufs Hx _ IH]; intros acc.
  - simpl. rewrite app_nil_r. reflexivity.
  - rewrite assemble_cons, Hx. simpl. rewrite IH, app_assoc. reflexivity.
Qed.

(** The loop stops at the first entry that raises. *)
Lemma assemble_raise (fp : binary64) (pre : list pyval) (bufs : list (list Z))
    (x : pyval) (post : list pyval) (e : exn) (acc : list Z) :
  Forall2 (λ x b, entry_tone fp x = Ok b) pre bufs →
  entry_tone fp x = Raise e →
  assemble fp (pre ++ x :: post) acc = Raise e.
Proof.
  intros H Hx. revert acc. induction H as [|y b pre bufs Hy _ IH]; intros acc.
  - simpl app. rewrite assemble_cons, Hx. reflexivity.
  - simpl app. rewrite assemble_cons, Hy. simpl. apply IH.
Qed.

(** The loop depends on the entries through [entry_tone] only. *)
Lemma assemble_ext (fp : binary64) (l1 l2 : list pyval) (acc : list Z) :
  Forall2 (λ a b, entry_tone fp a = entry_tone fp b) l1 l2 →
  assemble fp l1 acc = assemble fp l2 acc.
Proof.
  intros H. revert acc. induction H as [|a b l1 l2 Hab _ IH]; intros acc; [reflexivity|].
  rewrite !assemble_cons, Hab. destruct (entry_tone fp b); simpl; [apply IH|reflexivity].
Qed.

Lemma generate_raw_data_list (fp : binary64) (items : list pyval)
    (raw0 : option (list Z)) (fs : gmap string file) :
  generate_raw_data fp (World (mkDTMF (PList items) raw0) fs) =
  match assemble fp items [] with
  | Ok data => (Ok (), World (mkDTMF (PList items) (Some data)) fs)
  | Raise e => (Raise e, World (mkDTMF (PList items) raw0) fs)
  end.
Proof.
  unfold generate_raw_data, mbind, M_bind, get_self, lift, set_raw_data. simpl.
  destruct (assemble fp items []); reflexivity.
Qed.

(** ** The sequence validator *)

(** A record the validator lets through: a list or a tuple whose first two
    components are a string and an integer. *)
Definition is_record (item : pyval) : bool :=
  match item with
  | PList (PStr _ :: PInt _ :: _) | PTuple (PStr _ :: PInt _ :: _) => true
  | _ => false
  end.

(** [item] reads as the entry [(symbol, duration)]. *)
Definition entry_of (item : pyval) (e : string * Z) : Prop :=
  py_getitem item 0 = Ok (PStr e.1) ∧ py_getitem item 1 = Ok (PInt e.2).

Lemma entry_of_tuple (k : string) (d : Z) : entry_of (PTuple [PStr k; PInt d]) (k, d).
Proof. split; reflexivity. Qed.

Lemma entry_of_list (k : string) (d : Z) : entry_of (PList [PStr k; PInt d]) (k, d).
Proof. split; reflexivity. Qed.

Lemma entry_of_is_record (item : pyval) (e : string * Z) :
  entry_of item e → is_record item = true.
Proof.
  intros [H0 H1].
  destruct item as [| | | |s|l|l|l|l]; simpl in *; try discriminate.
  - destruct (String.get 1 s); discriminate.
  - destruct l as [|x0 [|x1 l]]; simpl in *; try discriminate.
    injection H0 as ->. injection H1 as ->. reflexivity.
  - destruct l as [|x0 [|x1 l]]; simpl in *; try discriminate.
    injection H0 as ->. injection H1 as ->. reflexivity.
Qed.

Lemma is_record_type (item : pyval) :
  is_record item = true → type_of item ∈ VALID_SEQUENCE_TYPES.
Proof.
  unfold VALID_SEQUENCE_TYPES.
  destruct item as [| | | | | | | |]; simpl; try discriminate; intros _.
  - apply list_elem_of_here.
  - apply list_elem_of_further, list_elem_of_here.
Qed.

Lemma valid_type_cases (item : pyval) :
  type_of item ∈ VALID_SEQUENCE_TYPES →
  (∃ l, item = PList l) ∨ (∃ l, item = PTuple l) ∨ (∃ l, item = PSet l).
Proof.
  unfold VALID_SEQUENCE_TYPES. intros H.
  apply list_elem_of_In in H. simpl in H.
  destruct item; simpl in H;
    try (destruct H as [H|[H|[H|[]]]]; discriminate).
  - left. eexists; reflexivity.
  - right; left. eexists; reflexivity.
  - right; right. eexists; reflexivity.
Qed.

Lemma forallb_Forall_true {A} (f : A → bool) (l : list A) :
  forallb f l = true ↔ Forall (λ x, f x = true) l.
Proof.
  induction l as [|x l IH]; simpl.
  - split; [constructor|reflexivity].
  - rewrite andb_true_iff, IH. split.
    + intros [? ?]. constructor; assumption.
    + intros H. inversion H; subst. split; assumption.
Qed.

Lemma count_occ_false_0 (bs : list bool) :
  count_occ Bool.bool_dec bs false = 0%nat ↔ Forall (λ b, b = true) bs.
Proof.
  induction bs as [|b bs IH]; simpl.
  - split; [constructor|reflexivity].
  - destruct b; simpl.
    + destruct (Bool.bool_dec true false) as [?|_]; [discriminate|].
      rewrite IH. split; [constructor; [reflexivity|assumption]|].
      intros H. inversion H; assumption.
    + destruct (Bool.bool_dec false false) as [_|n]; [|contradiction].
      split; [discriminate|]. intros H. inversion H; discriminate.
Qed.

(** One turn of the validator's loop, on a record and on anything else of
    an admitted type. *)
Lemma check_items_record (item : pyval) (rest : list pyval) :
  is_record item = true → check_items (item :: rest) = check_items rest.
Proof.
  destruct item as [| | | | |l|l| |]; try discriminate;
    destruct l as [|[] [|[] l]]; try discriminate; reflexivity.
Qed.

Lemma check_items_not_record (item : pyval) (rest : list pyval) :
  is_record item = false → check_items (item :: rest) ≠ Ok true.
Proof.
  intros Hr.
  destruct item as [| | | |s|l|l|l|l]; simpl; try discriminate.
  - destruct (String.get 0 s); simpl; [|discriminate].
    destruct (String.get 1 s); simpl; discriminate.
  - destruct l as [|x0 [|x1 l]]; simpl; try discriminate.
    + destruct x0; simpl; discriminate.
    + destruct x0; simpl; try discriminate.
      destruct x1; simpl; try discriminate.
  - destruct l as [|x0 [|x1 l]]; simpl; try discriminate.
    + destruct x0; simpl; discriminate.
    + destruct x0; simpl; try discriminate.
      destruct x1; simpl; try discriminate.
Qed.

Lemma check_items_true (items : list pyval) :
  check_items items = Ok true ↔ forallb is_record items = true.
Proof.
  induction items as [|item items IH]; [simpl; tauto|].
  cbn [forallb]. rewrite andb_true_iff, <- IH.
  destruct (is_record item) eqn:Hr.
  - rewrite (check_items_record _ _ Hr). tauto.
  - split; [|intros [? _]; discriminate].
    intros H. exfalso. exact (check_items_not_record _ _ Hr H).
Qed.

(** The validator answers [True] exactly on a list of records. *)
Lemma dtmf_sequence_is_valid_true (v : pyval) :
  dtmf_sequence_is_valid v = Ok true ↔
  ∃ items, v = PList items ∧ forallb is_record items = true.
Proof.
  unfold dtmf_sequence_is_valid.
  destruct v as [| | | |s|items|l|l|l]; simpl;
    try (split; [discriminate|intros (? & ? & _); discriminate]).
  case_bool_decide as Hc.
  - split; [discriminate|]. intros (items' & [= <-] & Hall).
    exfalso. apply Hc. apply count_occ_false_0.
    rewrite Forall_fmap. apply forallb_Forall_true in Hall.
    eapply Forall_impl; [exact Hall|]. simpl. intros x Hx.
    apply bool_decide_eq_true, is_record_type, Hx.
  - rewrite check_items_true. split.
    + intros H. exists items. split; [reflexivity|exact H].
    + intros (items' & [= <-] & H). exact H.
Qed.

(** ** The setter *)

(** The candidate once a text candidate has been decoded. *)
Definition decoded (json_loads : string → result pyval) (v : pyval) : result pyval :=
  if bool_decide (type_of v = TStr) then parse_json_string json_loads v else Ok v.

Lemma dtmf_sequence_setter_unfold json_loads (v : pyval) (w : world) :
  dtmf_sequence_setter json_loads v w =
  match decoded json_loads v with
  | Raise e => (Raise e, w)
  | Ok v' =>
      if bool_decide (type_of v' = TList) then
        match dtmf_sequence_is_valid v' with
        | Ok true => (Ok (), World (mkDTMF v' (_raw_data (self w))) (files w))
        | Ok false => (Ok (), w)
        | Raise e => (Raise e, w)
        end
      else (Ok (), w)
  end.
Proof.
  unfold dtmf_sequence_setter, decoded, mbind, M_bind, lift, mret, M_ret.
  destruct (bool_decide (type_of v = TStr)).
  - destruct (parse_json_string json_loads v) as [v'|e]; [|reflexivity].
    destruct (bool_decide (type_of v' = TList)); [|reflexivity].
    destruct (dtmf_sequence_is_valid v') as [[|]|e]; reflexivity.
  - destruct (bool_decide (type_of v = TList)); [|reflexivity].
    destruct (dtmf_sequence_is_valid v) as [[|]|e]; reflexivity.
Qed.

(** A list of records is stored. *)
Lemma dtmf_sequence_setter_accepts json_loads (items : list pyval) (w : world) :
  forallb is_record items = true →
  dtmf_sequence_setter json_loads (PList items) w =
  (Ok (), World (mkDTMF (PList items) (_raw_data (self w))) (files w)).
Proof.
  intros Hall. rewrite dtmf_sequence_setter_unfold. unfold decoded. simpl.
  assert (Hv : dtmf_sequence_is_valid (PList items) = Ok true).
  { apply dtmf_sequence_is_valid_true. exists items. split; [reflexivity|exact Hall]. }
  rewrite Hv. reflexivity.
Qed.

(** A candidate the validator does not let through: not a list, or a list
    with an element that is not a record. *)
Definition malformed (v : pyval) : Prop :=
  match v with
  | PList items => forallb is_record items = false
  | _ => True
  end.

Lemma malformed_not_valid (v : pyval) :
  malformed v → dtmf_sequence_is_valid v ≠ Ok true.
Proof.
  intros Hm Hv. apply dtmf_sequence_is_valid_true in Hv as (items & -> & Hall).
  simpl in Hm. congruence.
Qed.

(** A decoder that accepts no text, for worlds in which no text candidate is
    handed over. *)
Definition no_text : string → result pyval := λ _, Raise JSONDecodeError.

Definition fresh : world := World (mkDTMF PNone None) ∅.

(** A candidate the setter drops without raising: the top-level value is
    not a list, or an element is not a list, a tuple or a set. *)
Definition silently_dropped (v : pyval) : Prop :=
  match v with
  | PList items => Exists (λ item, type_of item ∉ VALID_SEQUENCE_TYPES) items
  | _ => True
  end.

Lemma silently_dropped_invalid (v : pyval) :
  silently_dropped v → type_of v = TList → dtmf_sequence_is_valid v = Ok false.
Proof.
  destruct v as [| | | | |items| | |]; simpl; try discriminate.
  intros Hex _. unfold dtmf_sequence_is_valid. simpl.
  case_bool_decide as Hc; [reflexivity|].
  exfalso. apply count_occ_false_0 in Hc. rewrite Forall_fmap in Hc.
  apply Exists_exists in Hex as (item & Hin & Hty).
  rewrite Forall_forall in Hc. specialize (Hc item Hin). simpl in Hc.
  apply bool_decide_eq_true in Hc. contradiction.
Qed.

(** C2 (as the code has it): a malformed candidate -- after decoding, when it
    is text -- is never stored: the setter leaves the instance and the files
    as they were, so nothing is synthesised from the candidate.  When the
    decoded value is not a list, or holds an element that is not a list, a
    tuple or a set, the setter returns normally: no error reaches the
    caller. *)
Theorem dtmf_sequence_setter_drops_malformed
    (json_loads : string → result pyval) (v : pyval) (w : world) :
  (∀ v', decoded json_loads v = Ok v' → malformed v') →
  (dtmf_sequence_setter json_loads v w).2 = w ∧
  (∀ v', decoded json_loads v = Ok v' → silently_dropped v' →
         (dtmf_sequence_setter json_loads v w).1 = Ok ()).
Proof.
  intros Hmal. rewrite dtmf_sequence_setter_unfold.
  destruct (decoded json_loads v) as [v'|e] eqn:Hdec.
  - specialize (Hmal v' eq_refl).
    pose proof (malformed_not_valid v' Hmal) as Hnv.
    split.
    + case_bool_decide; [|reflexivity].
      destruct (dtmf_sequence_is_valid v') as [[|]|e]; try reflexivity.
      congruence.
    + intros v'' [= <-] Hs.
      case_bool_decide as Hty; [|reflexivity].
      rewrite (silently_dropped_invalid v' Hs Hty). reflexivity.
  - split; [reflexivity|]. intros v' [=].
Qed.

Lemma dtmf_sequence_setter_drops_malformed_witness :
  let candidate := PList [PTuple [PStr "2"; PInt 100]; PInt 7] in
  let w := World (mkDTMF (PList [PTuple [PStr "1"; PInt 100]]) (Some [0; 12; -7]))
                 {["old.wav" := Wave empty_wave]} in
  (∀ v', decoded no_text candidate = Ok v' → malformed v') ∧
  (dtmf_sequence_setter no_text candidate w).2 = w ∧
  (∀ v', decoded no_text candidate = Ok v' → silently_dropped v' →
         (dtmf_sequence_setter no_text candidate w).1 = Ok ()).
Proof.
  intros candidate w.
  assert (Hm : ∀ v', decoded no_text candidate = Ok v' → malformed v').
  { intros v' [= <-]. reflexivity. }
  split; [exact Hm|].
  exact (dtmf_sequence_setter_drops_malformed no_text candidate w Hm).
Defined.

(** C2 (as stated) fails: a candidate that is not a list, a list with an
    element that is not a record, and a record with components of the wrong
    types are each dropped without any error; a record of three components
    is stored. *)
Lemma dtmf_sequence_setter_raises_nothing :
  dtmf_sequence_setter no_text (PInt 5) fresh = (Ok (), fresh) ∧
  dtmf_sequence_setter no_text (PList [PInt 5]) fresh = (Ok (), fresh) ∧
  dtmf_sequence_setter no_text (PList [PList [PInt 1; PStr "1"]]) fresh = (Ok (), fresh) ∧
  dtmf_sequence_setter no_text (PList [PList [PStr "1"; PInt 100; PInt 7]]) fresh =
    (Ok (), World (mkDTMF (PList [PList [PStr "1"; PInt 100; PInt 7]]) None) ∅).
Proof. repeat split; reflexivity. Qed.

(** C9: with no sequence stored, [generate_raw_data] raises
    [AttributeError] and leaves the instance and the files untouched; this
    is the state a constructor call without arguments leaves. *)
Theorem generate_raw_data_without_sequence :
  (∀ (fp : binary64) (raw0 : option (list Z)) (fs : gmap string file),
     generate_raw_data fp (World (mkDTMF PNone raw0) fs) =
     (Raise (AttributeError "No dtmf sequence set"), World (mkDTMF PNone raw0) fs)) ∧
  (∀ (fp : binary64) (json_loads : string → result pyval) (w : world),
     __init__ json_loads PNone PNone w = (Ok (), World (mkDTMF PNone None) (files w)) ∧
     generate_raw_data fp (__init__ json_loads PNone PNone w).2 =
     (Raise (AttributeError "No dtmf sequence set"), World (mkDTMF PNone None) (files w))).
Proof.
  split.
  - intros fp raw0 fs. reflexivity.
  - intros fp json_loads w. split; reflexivity.
Qed.

(** ** Entries of a tone sequence *)

Definition symbol_known (k : string) : bool :=
  bool_decide (is_Some (FREQUENCY_MAP !! k)).

(** The symbols of the table: the digits, [A] to [D], [*], [#] and [S]. *)
Definition SYMBOLS : list string :=
  ["0"; "1"; "2"; "3"; "4"; "5"; "6"; "7"; "8"; "9";
   "A"; "B"; "C"; "D"; "*"; "#"; "S"].

Lemma FREQUENCY_MAP_dom : dom FREQUENCY_MAP = list_to_set SYMBOLS.
Proof. apply (bool_decide_unpack _). vm_compute. exact I. Qed.

Lemma symbol_known_iff (k : string) : symbol_known k = true ↔ k ∈ SYMBOLS.
Proof.
  unfold symbol_known. rewrite bool_decide_eq_true, <- elem_of_dom, FREQUENCY_MAP_dom.
  apply elem_of_list_to_set.
Qed.

(** [b] is the sub-buffer of the entry [e]: what [generate_tone] returns
    for the pair the table holds for the symbol and for the duration. *)
Definition synthesised (fp : binary64) (e : string * Z) (b : list Z) : Prop :=
  ∃ f1 f2, FREQUENCY_MAP !! e.1 = Some (f1, f2) ∧
           generate_tone fp f1 f2 (PInt e.2) = Ok b.

(** The samples of one entry whose symbol is in the table, when the count
    is the integer quotient. *)
Definition entry_samples (fp : binary64) (e : string * Z) : list Z :=
  match FREQUENCY_MAP !! e.1 with
  | Some (f1, f2) => tone_sample fp f1 f2 <$> py_range ((SAMPLE_RATE * e.2) ÷ 1000)
  | None => []
  end.

Definition Zsum (l : list Z) : Z := foldr Z.add 0 l.

(** What the loop body does with an entry. *)
Lemma entry_tone_entry (fp : binary64) (item : pyval) (e : string * Z) :
  entry_of item e →
  entry_tone fp item =
  match FREQUENCY_MAP !! e.1 with
  | Some (f1, f2) => generate_tone fp f1 f2 (PInt e.2)
  | None => Raise (KeyError (PStr e.1))
  end.
Proof.
  intros [H0 H1]. unfold entry_tone. rewrite H0, H1. simpl.
  unfold FREQUENCY_MAP_getitem. simpl.
  destruct (FREQUENCY_MAP !! e.1) as [[f1 f2]|]; reflexivity.
Qed.

Lemma entry_tone_synthesised (fp : binary64) (item : pyval) (e : string * Z)
    (b : list Z) :
  entry_of item e → synthesised fp e b → entry_tone fp item = Ok b.
Proof.
  intros He (f1 & f2 & Hk & Hg). rewrite (entry_tone_entry fp item e He), Hk. exact Hg.
Qed.

Lemma entry_tone_unknown (fp : binary64) (item : pyval) (e : string * Z) :
  entry_of item e → symbol_known e.1 = false →
  entry_tone fp item = Raise (KeyError (PStr e.1)).
Proof.
  intros He Hk. rewrite (entry_tone_entry fp item e He).
  apply bool_decide_eq_false in Hk.
  destruct (FREQUENCY_MAP !! e.1) as [p|] eqn:E; [|reflexivity].
  exfalso. apply Hk. exists p. reflexivity.
Qed.

(** For a symbol of the table the loop body returns a buffer or overflows. *)
Lemma entry_tone_known (fp : binary64) (item : pyval) (e : string * Z) :
  entry_of item e → symbol_known e.1 = true →
  (∃ b, synthesised fp e b ∧ entry_tone fp item = Ok b) ∨
  entry_tone fp item = Raise OverflowError.
Proof.
  intros He Hk. rewrite (entry_tone_entry fp item e He).
  apply bool_decide_eq_true in Hk as [[f1 f2] Hk]. rewrite Hk.
  pose proof (FREQUENCY_MAP_precondition _ _ _ Hk) as Hpre.
  destruct (generate_tone fp f1 f2 (PInt e.2)) as [b|x] eqn:Hg.
  - left. exists b. split; [|reflexivity]. exists f1, f2. split; assumption.
  - right. f_equal.
    rewrite generate_tone_unfold in Hg by exact Hpre.
    destruct (number_of_samples fp (PInt e.2)) as [n|x'] eqn:Hn; [discriminate|].
    injection Hg as <-. exact (number_of_samples_int_raises fp _ _ Hn).
Qed.

Lemma synthesised_det (fp : binary64) (e : string * Z) (b b' : list Z) :
  synthesised fp e b → synthesised fp e b' → b = b'.
Proof.
  intros (f1 & f2 & Hk & Hg) (f1' & f2' & Hk' & Hg'). congruence.
Qed.

(** Up to [MAX_MS] in magnitude every entry of a known symbol has a
    sub-buffer. *)
Lemma synthesised_total (fp : binary64) (e : string * Z) :
  symbol_known e.1 = true → - MAX_MS <= e.2 <= MAX_MS → ∃ b, synthesised fp e b.
Proof.
  intros Hk Hd. apply bool_decide_eq_true in Hk as [[f1 f2] Hk].
  pose proof (FREQUENCY_MAP_precondition _ _ _ Hk) as Hpre.
  destruct (generate_tone_in_range_ok fp f1 f2 e.2 Hpre Hd) as (n & _ & _ & _ & Hg).
  eexists. exists f1, f2. split; [exact Hk|exact Hg].
Qed.

(** Up to [MAX_EXACT_MS] the sub-buffer is [entry_samples]. *)
Lemma synthesised_entry_samples (fp : binary64) (e : string * Z) :
  symbol_known e.1 = true → 0 <= e.2 <= MAX_EXACT_MS →
  synthesised fp e (entry_samples fp e).
Proof.
  intros Hk Hd. apply bool_decide_eq_true in Hk as [[f1 f2] Hk].
  pose proof (FREQUENCY_MAP_precondition _ _ _ Hk) as Hpre.
  exists f1, f2. split; [exact Hk|]. unfold entry_samples. rewrite Hk.
  apply generate_tone_exact; assumption.
Qed.

Lemma synthesised_all (fp : binary64) (entries : list (string * Z)) :
  Forall (λ e, symbol_known e.1 = true ∧ - MAX_MS <= e.2 <= MAX_MS) entries →
  ∃ bufs, Forall2 (synthesised fp) entries bufs.
Proof.
  induction 1 as [|e entries [Hk Hd] _ [bufs IH]].
  - exists []. constructor.
  - destruct (synthesised_total fp e Hk Hd) as [b Hb].
    exists (b :: bufs). constructor; assumption.
Qed.

Lemma synthesised_all_exact (fp : binary64) (entries : list (string * Z)) :
  Forall (λ e, symbol_known e.1 = true ∧ 0 <= e.2 <= MAX_EXACT_MS) entries →
  Forall2 (synthesised fp) entries (entry_samples fp <$> entries).
Proof.
  induction 1 as [|e entries [Hk Hd] _ IH]; [constructor|].
  rewrite fmap_cons. constructor; [apply synthesised_entry_samples; assumption|exact IH].
Qed.

Lemma entry_tones_synthesised (fp : binary64) (items : list pyval)
    (entries : list (string * Z)) (bufs : list (list Z)) :
  Forall2 entry_of items entries →
  Forall2 (synthesised fp) entries bufs →
  Forall2 (λ x b, entry_tone fp x = Ok b) items bufs.
Proof.
  intros He. revert bufs. induction He as [|item e items entries Hie _ IH]; intros bufs Hs.
  - inversion Hs; subst. constructor.
  - inversion Hs as [|? b ? bufs' Hb Hbs]; subst.
    constructor; [exact (entry_tone_synthesised fp item e b Hie Hb)|apply IH, Hbs].
Qed.

(** For entries that synthesise, the stored buffer is their sub-buffers
    joined in order. *)
Lemma generate_raw_data_synthesised (fp : binary64) (items : list pyval)
    (entries : list (string * Z)) (bufs : list (list Z))
    (raw0 : option (list Z)) (fs : gmap string file) :
  Forall2 entry_of items entries →
  Forall2 (synthesised fp) entries bufs →
  generate_raw_data fp (World (mkDTMF (PList items) raw0) fs) =
  (Ok (), World (mkDTMF (PList items) (Some (concat bufs))) fs).
Proof.
  intros He Hs. rewrite generate_raw_data_list.
  rewrite (assemble_ok fp items bufs []); [reflexivity|].
  exact (entry_tones_synthesised fp items entries bufs He Hs).
Qed.

Lemma generate_raw_data_entries (fp : binary64) (items : list pyval)
    (entries : list (string * Z)) (raw0 : option (list Z)) (fs : gmap string file) :
  Forall2 entry_of items entries →
  Forall (λ e, symbol_known e.1 = true ∧ 0 <= e.2 <= MAX_EXACT_MS) entries →
  generate_raw_data fp (World (mkDTMF (PList items) raw0) fs) =
  (Ok (), World (mkDTMF (PList items) (Some (concat (entry_samples fp <$> entries)))) fs).
Proof.
  intros He Hk. apply (generate_raw_data_synthesised fp items entries); [exact He|].
  apply synthesised_all_exact, Hk.
Qed.

Lemma quot_1000_nonneg (d : Z) : 0 <= d → 0 <= (SAMPLE_RATE * d) ÷ 1000.
Proof. intros Hd. apply Z.quot_pos; unfold SAMPLE_RATE; lia. Qed.

Lemma length_entry_samples (fp : binary64) (e : string * Z) :
  symbol_known e.1 = true → 0 <= e.2 →
  Z.of_nat (length (entry_samples fp e)) = (SAMPLE_RATE * e.2) ÷ 1000.
Proof.
  intros Hk Hd. apply bool_decide_eq_true in Hk as [[f1 f2] Hk].
  unfold entry_samples. rewrite Hk.
  rewrite length_fmap, length_py_range. pose proof (quot_1000_nonneg e.2 Hd). lia.
Qed.

Lemma Zsum_cons (x : Z) (l : list Z) : Zsum (x :: l) = x + Zsum l.
Proof. reflexivity. Qed.

Lemma length_concat_Zsum (bufs : list (list Z)) :
  Z.of_nat (length (concat bufs)) = Zsum ((λ b, Z.of_nat (length b)) <$> bufs).
Proof.
  induction bufs as [|b bufs IH]; simpl; [reflexivity|].
  rewrite length_app, Nat2Z.inj_add, IH. reflexivity.
Qed.

(** ** Rounding, as the specification words it *)

(** [n] is an integer nearest to [x]: what rounding to nearest returns,
    however ties are broken. *)
Definition nearest_integer (x : R) (n : Z) : Prop :=
  (Rabs (x - IZR n) <= 1 / 2)%R.

(** ** Sample counts *)

(** The count the specification words: the durations' sample counts, each
    rounded to nearest, added up. *)
Definition rounded_count (entries : list (string * Z)) (n : Z) : Prop :=
  ∃ counts,
    Forall2 (λ e c, nearest_integer (IZR SAMPLE_RATE * IZR e.2 / 1000) c) entries counts ∧
    n = Zsum counts.

Lemma Zsum_entry_lengths (fp : binary64) (entries : list (string * Z)) :
  Forall (λ e, symbol_known e.1 = true ∧ 0 <= e.2 <= MAX_EXACT_MS) entries →
  Zsum ((λ b, Z.of_nat (length b)) <$> (entry_samples fp <$> entries)) =
  Zsum ((λ e, (SAMPLE_RATE * e.2) ÷ 1000) <$> entries).
Proof.
  induction 1 as [|e entries [Hk Hd] _ IH]; [reflexivity|].
  rewrite !fmap_cons, !Zsum_cons, IH, (length_entry_samples fp e Hk) by lia.
  reflexivity.
Qed.

(** C3 (as the code has it): for a sequence of entries with known symbols
    and durations from 0 to [2 ^ 44] ms, [generate_raw_data] stores a buffer
    whose length is the sum over the entries of [44100 * durationMs / 1000]
    truncated to an integer, whatever the platform's floats.  (Beyond that
    range the float quotient is no longer the exact one.) *)
Theorem sample_count_truncates (fp : binary64) (items : list pyval)
    (entries : list (string * Z)) (raw0 : option (list Z)) (fs : gmap string file) :
  Forall2 entry_of items entries →
  Forall (λ e, symbol_known e.1 = true ∧ 0 <= e.2 <= MAX_EXACT_MS) entries →
  ∃ raw,
    generate_raw_data fp (World (mkDTMF (PList items) raw0) fs) =
      (Ok (), World (mkDTMF (PList items) (Some raw)) fs) ∧
    Z.of_nat (length raw) = Zsum ((λ e, (SAMPLE_RATE * e.2) ÷ 1000) <$> entries).
Proof.
  intros He Hk. exists (concat (entry_samples fp <$> entries)). split.
  - apply generate_raw_data_entries; assumption.
  - rewrite length_concat_Zsum. apply Zsum_entry_lengths, Hk.
Qed.

Lemma sample_count_truncates_witness :
  Forall2 entry_of [PTuple [PStr "1"; PInt 100]; PList [PStr "S"; PInt 6]]
          [("1", 100); ("S", 6)] ∧
  Forall (λ e : string * Z, symbol_known e.1 = true ∧ 0 <= e.2 <= MAX_EXACT_MS)
         [("1", 100); ("S", 6)] ∧
  ∃ raw,
    generate_raw_data exact
      (World (mkDTMF (PList [PTuple [PStr "1"; PInt 100]; PList [PStr "S"; PInt 6]]) None) ∅) =
      (Ok (), World (mkDTMF (PList [PTuple [PStr "1"; PInt 100]; PList [PStr "S"; PInt 6]])
                            (Some raw)) ∅) ∧
    Z.of_nat (length raw) = 4410 + (264 + 0).
Proof.
  assert (He : Forall2 entry_of [PTuple [PStr "1"; PInt 100]; PList [PStr "S"; PInt 6]]
                       [("1", 100); ("S", 6)]).
  { repeat constructor. }
  assert (Hk : Forall (λ e : string * Z, symbol_known e.1 = true ∧ 0 <= e.2 <= MAX_EXACT_MS)
                      [("1", 100); ("S", 6)]).
  { repeat constructor; simpl; unfold MAX_EXACT_MS; lia. }
  split; [exact He|]. split; [exact Hk|].
  exact (sample_count_truncates exact _ _ None ∅ He Hk).
Defined.

(** C3 (as stated) fails: an entry of 6 ms yields 264 samples on every
    platform, and 264 is not 264.6 rounded to nearest. *)
Lemma sample_count_not_rounded :
  (∀ fp : binary64, ∃ raw,
     generate_raw_data fp (World (mkDTMF (PList [PTuple [PStr "1"; PInt 6]]) None) ∅) =
       (Ok (), World (mkDTMF (PList [PTuple [PStr "1"; PInt 6]]) (Some raw)) ∅) ∧
     Z.of_nat (length raw) = 264) ∧
  ¬ rounded_count [("1", 6)] 264.
Proof.
  split.
  - intros fp. exists (concat (entry_samples fp <$> [("1", 6)])). split.
    { apply generate_raw_data_entries; repeat constructor; simpl; unfold MAX_EXACT_MS; lia. }
    rewrite length_concat_Zsum, !fmap_cons, !fmap_nil, !Zsum_cons.
    rewrite length_entry_samples by (reflexivity || (simpl; lia)). reflexivity.
  - intros (counts & Hc & Hsum).
    inversion Hc as [|? c ? cs Hn Hnil]; subst. inversion Hnil; subst.
    rewrite Zsum_cons in Hsum. change (Zsum []) with 0 in Hsum.
    assert (c = 264) by lia. subst c.
    unfold nearest_integer, SAMPLE_RATE in Hn. cbn [snd] in Hn.
    unfold Rabs in Hn. destruct (Rcase_abs _) in Hn; lra.
Qed.

(** Why the range stops short: at 38641965647919 ms the float nearest to the
    quotient 1704110685073227.9 is 1704110685073228, one above the integer
    quotient; at [10 ^ 400] ms the quotient is too large for a float. *)
Lemma number_of_samples_beyond_exact (fp : binary64) :
  number_of_samples fp (PInt 38641965647919) = Ok 1704110685073228 ∧
  (SAMPLE_RATE * 38641965647919) ÷ 1000 = 1704110685073227 ∧
  number_of_samples fp (PInt (10 ^ 400)) = Raise OverflowError.
Proof. repeat split; vm_compute; reflexivity. Qed.

(** ** Sample values *)




Section Sample3675.
Local Open Scope R_scope.




End Sample3675.


(** Every sample of a buffer returned for the pair [(0, 0)] is 0. *)
Lemma generate_tone_silence (fp : binary64) (v : pyval) (buf : list Z) :
  binary64_ok fp → generate_tone fp 0 0 v = Ok buf → Forall (λ x, x = 0) buf.
Proof.
  intros Hfp Hg. apply generate_tone_inv in Hg as (_ & n & _ & ->).
  apply Forall_fmap, Forall_forall. intros i _. apply tone_sample_silence, Hfp.
Qed.

Lemma generate_tone_silence_exact (fp : binary64) (d : Z) :
  binary64_ok fp → 0 <= d <= MAX_EXACT_MS →
  generate_tone fp 0 0 (PInt d) = Ok (replicate (Z.to_nat ((SAMPLE_RATE * d) ÷ 1000)) 0).
Proof.
  intros Hfp Hd. rewrite generate_tone_exact; [|split; right; reflexivity|exact Hd].
  f_equal. rewrite <- length_py_range.
  apply const_fmap. intros _ i _. apply tone_sample_silence, Hfp.
Qed.

(** C5: the table maps [S] to [(0, 0)]; for that pair every sample of a
    returned buffer is 0 whatever the duration, a buffer is returned for
    every duration up to [2 ^ 1000] ms in magnitude, and the sequence
    [("S", 50)] yields 2205 samples, all 0. *)
Theorem silence_is_zero (fp : binary64) :
  binary64_ok fp →
  FREQUENCY_MAP !! "S" = Some (0, 0) ∧
  (∀ (v : pyval) (buf : list Z),
     generate_tone fp 0 0 v = Ok buf → Forall (λ x, x = 0) buf) ∧
  (∀ d : Z, - MAX_MS <= d <= MAX_MS →
     ∃ buf, generate_tone fp 0 0 (PInt d) = Ok buf ∧ Forall (λ x, x = 0) buf) ∧
  (∀ (d : Z) (raw0 : option (list Z)) (fs : gmap string file),
     - MAX_MS <= d <= MAX_MS →
     ∃ raw,
       generate_raw_data fp (World (mkDTMF (PList [PTuple [PStr "S"; PInt d]]) raw0) fs) =
         (Ok (), World (mkDTMF (PList [PTuple [PStr "S"; PInt d]]) (Some raw)) fs) ∧
       Forall (λ x, x = 0) raw) ∧
  (∀ (raw0 : option (list Z)) (fs : gmap string file),
     generate_raw_data fp (World (mkDTMF (PList [PTuple [PStr "S"; PInt 50]]) raw0) fs) =
       (Ok (), World (mkDTMF (PList [PTuple [PStr "S"; PInt 50]])
                             (Some (replicate 2205 0))) fs)).
Proof.
  intros Hfp.
  assert (Hpre : tone_precondition 0 0) by (split; right; reflexivity).
  assert (Htone : ∀ d : Z, - MAX_MS <= d <= MAX_MS →
            ∃ buf, generate_tone fp 0 0 (PInt d) = Ok buf ∧ Forall (λ x, x = 0) buf).
  { intros d Hd.
    destruct (generate_tone_in_range_ok fp 0 0 d Hpre Hd) as (n & _ & _ & _ & Hg).
    eexists. split; [exact Hg|]. exact (generate_tone_silence fp _ _ Hfp Hg). }
  split; [reflexivity|]. split; [|split; [exact Htone|split]].
  - intros v buf. apply generate_tone_silence, Hfp.
  - intros d raw0 fs Hd. destruct (Htone d Hd) as (buf & Hg & Hz).
    exists (concat [buf]). split.
    + apply (generate_raw_data_synthesised fp _ [("S", d)]).
      * repeat constructor.
      * repeat constructor. exists 0, 0. split; [reflexivity|exact Hg].
    + simpl. rewrite app_nil_r. exact Hz.
  - intros raw0 fs.
    rewrite (generate_raw_data_synthesised fp _ [("S", 50)] [replicate 2205 0]).
    + reflexivity.
    + repeat constructor.
    + repeat constructor. exists 0, 0. split; [reflexivity|].
      simpl. apply (generate_tone_silence_exact fp 50 Hfp).
      unfold MAX_EXACT_MS. lia.
Qed.

Lemma silence_is_zero_witness :
  binary64_ok exact ∧
  FREQUENCY_MAP !! "S" = Some (0, 0) ∧
  (∀ (v : pyval) (buf : list Z),
     generate_tone exact 0 0 v = Ok buf → Forall (λ x, x = 0) buf) ∧
  (∀ d : Z, - MAX_MS <= d <= MAX_MS →
     ∃ buf, generate_tone exact 0 0 (PInt d) = Ok buf ∧ Forall (λ x, x = 0) buf) ∧
  (∀ (d : Z) (raw0 : option (list Z)) (fs : gmap string file),
     - MAX_MS <= d <= MAX_MS →
     ∃ raw,
       generate_raw_data exact (World (mkDTMF (PList [PTuple [PStr "S"; PInt d]]) raw0) fs) =
         (Ok (), World (mkDTMF (PList [PTuple [PStr "S"; PInt d]]) (Some raw)) fs) ∧
       Forall (λ x, x = 0) raw) ∧
  (∀ (raw0 : option (list Z)) (fs : gmap string file),
     generate_raw_data exact (World (mkDTMF (PList [PTuple [PStr "S"; PInt 50]]) raw0) fs) =
       (Ok (), World (mkDTMF (PList [PTuple [PStr "S"; PInt 50]])
                             (Some (replicate 2205 0))) fs)).
Proof.
  split; [exact exact_ok|]. exact (silence_is_zero exact exact_ok).
Defined.

(** C8: every sample of a buffer [generate_tone] returns lies between
    -32767 and 32767, whatever the duration; under the asserted precondition
    a buffer is returned for every duration up to [2 ^ 1000] ms in
    magnitude. *)
Theorem generate_tone_in_range (fp : binary64) (f1 f2 : Z) :
  binary64_ok fp →
  tone_precondition f1 f2 →
  (∀ (v : pyval) (buf : list Z),
     generate_tone fp f1 f2 v = Ok buf → Forall (λ x, -32767 <= x <= 32767) buf) ∧
  (∀ d : Z, - MAX_MS <= d <= MAX_MS → ∃ buf, generate_tone fp f1 f2 (PInt d) = Ok buf).
Proof.
  intros Hfp Hpre. split.
  - intros v buf Hg. apply generate_tone_inv in Hg as (_ & n & _ & ->).
    apply Forall_fmap, Forall_forall. intros i _. apply (tone_sample_bounds fp f1 f2 i Hfp).
  - intros d Hd.
    destruct (generate_tone_in_range_ok fp f1 f2 d Hpre Hd) as (n & _ & _ & _ & Hg).
    eexists. exact Hg.
Qed.

Lemma generate_tone_in_range_witness :
  binary64_ok exact ∧
  tone_precondition 941 1633 ∧
  (∀ (v : pyval) (buf : list Z),
     generate_tone exact 941 1633 v = Ok buf → Forall (λ x, -32767 <= x <= 32767) buf) ∧
  (∀ d : Z, - MAX_MS <= d <= MAX_MS → ∃ buf, generate_tone exact 941 1633 (PInt d) = Ok buf).
Proof.
  assert (Hpre : tone_precondition 941 1633).
  { apply (bool_decide_unpack _). vm_compute. exact I. }
  split; [exact exact_ok|]. split; [exact Hpre|].
  exact (generate_tone_in_range exact 941 1633 exact_ok Hpre).
Defined.




(** ** Order of the entries *)

(** [reorder p l]: the elements of [l] taken in the order of the indices
    [p]. *)
Definition reorder {A} (p : list nat) (l : list A) : list A :=
  omap (λ i, l !! i) p.

Lemma reorder_cons {A} (i : nat) (p : list nat) (l : list A) :
  reorder (i :: p) l =
  match l !! i with Some x => x :: reorder p l | None => reorder p l end.
Proof. reflexivity. Qed.

Section Reorder.
Context {A B : Type}.

Lemma reorder_fmap (f : A → B) (p : list nat) (l : list A) :
  reorder p (f <$> l) = f <$> reorder p l.
Proof.
  induction p as [|i p IH]; [reflexivity|].
  rewrite !reorder_cons, list_lookup_fmap, IH.
  destruct (l !! i); reflexivity.
Qed.

Lemma reorder_Forall (P : A → Prop) (p : list nat) (l : list A) :
  Forall P l → Forall P (reorder p l).
Proof.
  intros Hl. induction p as [|i p IH]; [constructor|].
  rewrite reorder_cons. destruct (l !! i) as [x|] eqn:E; [|exact IH].
  constructor; [|exact IH]. rewrite Forall_lookup in Hl. exact (Hl i x E).
Qed.

Lemma reorder_Forall2 (R : A → B → Prop) (p : list nat) (l : list A) (k : list B) :
  Forall2 R l k → Forall2 R (reorder p l) (reorder p k).
Proof.
  intros Hlk. induction p as [|i p IH]; [constructor|].
  rewrite !reorder_cons.
  pose proof (proj1 (Forall2_lookup R l k) Hlk i) as Hi.
  destruct Hi; [constructor; assumption|exact IH].
Qed.

Lemma reorder_seq (l : list A) (j n : nat) :
  (j + n ≤ length l)%nat → reorder (seq j n) l = take n (drop j l).
Proof.
  revert j. induction n as [|n IH]; intros j Hj; [reflexivity|].
  simpl seq. rewrite reorder_cons.
  destruct (lookup_lt_is_Some_2 l j ltac:(lia)) as [x Hx].
  rewrite Hx, (drop_S _ _ _ Hx), IH by lia. reflexivity.
Qed.

Lemma reorder_id (l : list A) : reorder (seq 0 (length l)) l = l.
Proof. rewrite reorder_seq by lia. rewrite drop_0, take_ge; [reflexivity|lia]. Qed.

Lemma reorder_Permutation (p : list nat) (l : list A) :
  p ≡ₚ seq 0 (length l) → reorder p l ≡ₚ l.
Proof.
  intros Hp. rewrite <- (reorder_id l) at 2.
  unfold reorder. rewrite Hp. reflexivity.
Qed.

End Reorder.

(** C7: the stored buffer is the entries' sub-buffers joined in the order of
    the entries, the sub-buffer of an entry being what [generate_tone]
    returns for the pair the table holds for its symbol and for its
    duration; generating from a permutation of the entries joins the same
    sub-buffers permuted the same way.  Every entry with a symbol of the
    table and a duration up to [2 ^ 1000] ms in magnitude has a
    sub-buffer. *)
Theorem concatenation_preserves_order (fp : binary64)
    (items : list pyval) (entries : list (string * Z))
    (raw0 : option (list Z)) (fs : gmap string file) :
  Forall2 entry_of items entries →
  (∀ bufs : list (list Z),
     Forall2 (synthesised fp) entries bufs →
     generate_raw_data fp (World (mkDTMF (PList items) raw0) fs) =
       (Ok (), World (mkDTMF (PList items) (Some (concat bufs))) fs) ∧
     ∀ p : list nat, p ≡ₚ seq 0 (length items) →
       reorder p items ≡ₚ items ∧
       Forall2 (synthesised fp) (reorder p entries) (reorder p bufs) ∧
       generate_raw_data fp (World (mkDTMF (PList (reorder p items)) raw0) fs) =
         (Ok (), World (mkDTMF (PList (reorder p items))
                               (Some (concat (reorder p bufs)))) fs)) ∧
  (Forall (λ e, symbol_known e.1 = true ∧ - MAX_MS <= e.2 <= MAX_MS) entries →
   ∃ bufs : list (list Z), Forall2 (synthesised fp) entries bufs).
Proof.
  intros He. split.
  - intros bufs Hs. split.
    + exact (generate_raw_data_synthesised fp items entries bufs raw0 fs He Hs).
    + intros p Hp. split; [apply reorder_Permutation, Hp|].
      assert (Hs' : Forall2 (synthesised fp) (reorder p entries) (reorder p bufs))
        by apply reorder_Forall2, Hs.
      split; [exact Hs'|].
      apply (generate_raw_data_synthesised fp _ (reorder p entries)); [|exact Hs'].
      apply reorder_Forall2, He.
  - apply synthesised_all.
Qed.

Lemma concatenation_preserves_order_witness :
  let items := [PTuple [PStr "1"; PInt 100]; PList [PStr "S"; PInt 50];
                PTuple [PStr "2"; PInt 100]] in
  let entries := [("1", 100); ("S", 50); ("2", 100)] in
  Forall2 entry_of items entries ∧
  (∀ bufs : list (list Z),
     Forall2 (synthesised exact) entries bufs →
     generate_raw_data exact (World (mkDTMF (PList items) None) ∅) =
       (Ok (), World (mkDTMF (PList items) (Some (concat bufs))) ∅) ∧
     ∀ p : list nat, p ≡ₚ seq 0 (length items) →
       reorder p items ≡ₚ items ∧
       Forall2 (synthesised exact) (reorder p entries) (reorder p bufs) ∧
       generate_raw_data exact (World (mkDTMF (PList (reorder p items)) None) ∅) =
         (Ok (), World (mkDTMF (PList (reorder p items))
                               (Some (concat (reorder p bufs)))) ∅)) ∧
  (Forall (λ e : string * Z, symbol_known e.1 = true ∧ - MAX_MS <= e.2 <= MAX_MS) entries →
   ∃ bufs : list (list Z), Forall2 (synthesised exact) entries bufs).
Proof.
  intros items entries.
  assert (He : Forall2 entry_of items entries) by (repeat constructor).
  split; [exact He|].
  exact (concatenation_preserves_order exact items entries None ∅ He).
Defined.

(** ** Failing fast *)

Lemma M_bind_ok {A B} (m : M A) (f : A → M B) (w w' : world) (a : A) :
  m w = (Ok a, w') → (m ≫= f) w = f a w'.
Proof. intros H. unfold mbind, M_bind. rewrite H. reflexivity. Qed.

Lemma M_bind_raise {A B} (m : M A) (f : A → M B) (w w' : world) (e : exn) :
  m w = (Raise e, w') → (m ≫= f) w = (Raise e, w').
Proof. intros H. unfold mbind, M_bind. rewrite H. reflexivity. Qed.

(** With an unknown symbol among the entries the loop raises, whatever it
    has gathered: [KeyError] at the first unknown symbol, unless an entry
    before it overflows. *)
Lemma assemble_unknown (fp : binary64) (items : list pyval)
    (entries : list (string * Z)) :
  Forall2 entry_of items entries →
  Exists (λ e, symbol_known e.1 = false) entries →
  ∃ x : exn,
    (∀ acc, assemble fp items acc = Raise x) ∧
    (x = OverflowError ∨
     ∃ k, k ∈ entries.*1 ∧ symbol_known k = false ∧ x = KeyError (PStr k)) ∧
    (Forall (λ e, - MAX_MS <= e.2 <= MAX_MS) entries →
     ∃ k, k ∈ entries.*1 ∧ symbol_known k = false ∧ x = KeyError (PStr k)).
Proof.
  intros He. induction He as [|item e items entries Hie _ IH]; intros Hex.
  { inversion Hex. }
  destruct (symbol_known e.1) eqn:Hk.
  - assert (Hrest : Exists (λ e, symbol_known e.1 = false) entries).
    { inversion Hex as [? ? Hf|? ? Hr]; subst; [congruence|exact Hr]. }
    destruct (entry_tone_known fp item e Hie Hk) as [(b & Hb & Hok)|Hov].
    + destruct (IH Hrest) as (x & Hx & Hcase & Hbound).
      exists x. split; [|split].
      * intros acc. rewrite assemble_cons, Hok. simpl. apply Hx.
      * destruct Hcase as [->|(k & Hin & Hku & ->)]; [left; reflexivity|].
        right. exists k. split; [|split; [exact Hku|reflexivity]].
        rewrite fmap_cons. apply list_elem_of_further, Hin.
      * intros Hall. inversion Hall as [|? ? _ Hall']; subst.
        destruct (Hbound Hall') as (k & Hin & Hku & ->).
        exists k. split; [|split; [exact Hku|reflexivity]].
        rewrite fmap_cons. apply list_elem_of_further, Hin.
    + exists OverflowError. split; [|split].
      * intros acc. rewrite assemble_cons, Hov. reflexivity.
      * left. reflexivity.
      * intros Hall. inversion Hall as [|? ? Hd _]; subst.
        destruct (synthesised_total fp e Hk Hd) as [b Hb].
        rewrite (entry_tone_synthesised fp item e b Hie Hb) in Hov. discriminate.
  - exists (KeyError (PStr e.1)).
    assert (Hthis : ∃ k, k ∈ (e :: entries).*1 ∧ symbol_known k = false ∧
                         KeyError (PStr e.1) = KeyError (PStr k)).
    { exists e.1. split; [|split; [exact Hk|reflexivity]].
      rewrite fmap_cons. apply list_elem_of_here. }
    split; [|split].
    + intros acc. rewrite assemble_cons, (entry_tone_unknown fp item e Hie Hk). reflexivity.
    + right. exact Hthis.
    + intros _. exact Hthis.
Qed.

Lemma entries_are_records (items : list pyval) (entries : list (string * Z)) :
  Forall2 entry_of items entries → forallb is_record items = true.
Proof.
  intros He. apply forallb_Forall_true.
  induction He as [|x e ? ? Hxe _ IH]; constructor; [|exact IH].
  exact (entry_of_is_record x e Hxe).
Qed.

(** C6: when an entry of the sequence has a symbol outside the table
    (outside the digits, [A] to [D], [*], [#] and [S]), [generate_raw_data]
    raises and leaves [_raw_data] as it was; [create_dtmf_wave_file] stores
    the sequence, raises the same error and leaves every file as it was.
    The error is [KeyError] for such a symbol, or [OverflowError] when an
    entry before it has a duration too large for a float; it is [KeyError]
    when all durations are up to [2 ^ 1000] ms in magnitude. *)
Theorem unknown_symbol_fails_fast (fp : binary64)
    (json_loads : string → result pyval) (items : list pyval)
    (entries : list (string * Z)) (file_path : string) (dump_to_csv : bool) (w : world) :
  Forall2 entry_of items entries →
  Exists (λ e, (e.1 ∉ SYMBOLS)) entries →
  ∃ x : exn,
    (x = OverflowError ∨ ∃ k, k ∈ entries.*1 ∧ (k ∉ SYMBOLS) ∧ x = KeyError (PStr k)) ∧
    (Forall (λ e, - MAX_MS <= e.2 <= MAX_MS) entries →
     ∃ k, k ∈ entries.*1 ∧ (k ∉ SYMBOLS) ∧ x = KeyError (PStr k)) ∧
    (∀ (raw0 : option (list Z)) (fs : gmap string file),
       generate_raw_data fp (World (mkDTMF (PList items) raw0) fs) =
       (Raise x, World (mkDTMF (PList items) raw0) fs)) ∧
    create_dtmf_wave_file fp json_loads (PList items) file_path dump_to_csv w =
      (Raise x, World (mkDTMF (PList items) (_raw_data (self w))) (files w)).
Proof.
  intros He Hex.
  assert (Hex' : Exists (λ e, symbol_known e.1 = false) entries).
  { eapply Exists_impl; [exact Hex|]. intros e Hne. simpl in Hne.
    destruct (symbol_known e.1) eqn:Hk; [|reflexivity].
    exfalso. apply Hne, symbol_known_iff, Hk. }
  assert (Hout : ∀ k, symbol_known k = false → k ∉ SYMBOLS).
  { intros k Hk Hks. apply symbol_known_iff in Hks. congruence. }
  destruct (assemble_unknown fp items entries He Hex') as (x & Hraise & Hcase & Hbound).
  exists x. split; [|split].
  { destruct Hcase as [->|(k & Hin & Hk & ->)]; [left; reflexivity|].
    right. exists k. split; [exact Hin|]. split; [exact (Hout k Hk)|reflexivity]. }
  { intros Hall. destruct (Hbound Hall) as (k & Hin & Hk & ->).
    exists k. split; [exact Hin|]. split; [exact (Hout k Hk)|reflexivity]. }
  assert (Hgen : ∀ raw0 fs,
            generate_raw_data fp (World (mkDTMF (PList items) raw0) fs) =
            (Raise x, World (mkDTMF (PList items) raw0) fs)).
  { intros raw0 fs. rewrite generate_raw_data_list, Hraise. reflexivity. }
  split; [exact Hgen|].
  unfold create_dtmf_wave_file.
  erewrite M_bind_ok.
  2: { apply dtmf_sequence_setter_accepts. exact (entries_are_records items entries He). }
  apply M_bind_raise, Hgen.
Qed.

Lemma unknown_symbol_fails_fast_witness :
  let items := [PTuple [PStr "1"; PInt 100]; PTuple [PStr "E"; PInt 100]] in
  let entries := [("1", 100); ("E", 100)] in
  Forall2 entry_of items entries ∧
  Exists (λ e : string * Z, (e.1 ∉ SYMBOLS)) entries ∧
  ∃ x : exn,
    (x = OverflowError ∨ ∃ k, k ∈ entries.*1 ∧ (k ∉ SYMBOLS) ∧ x = KeyError (PStr k)) ∧
    (Forall (λ e : string * Z, - MAX_MS <= e.2 <= MAX_MS) entries →
     ∃ k, k ∈ entries.*1 ∧ (k ∉ SYMBOLS) ∧ x = KeyError (PStr k)) ∧
    (∀ (raw0 : option (list Z)) (fs : gmap string file),
       generate_raw_data exact (World (mkDTMF (PList items) raw0) fs) =
       (Raise x, World (mkDTMF (PList items) raw0) fs)) ∧
    create_dtmf_wave_file exact no_text (PList items) "test.wav" true fresh =
      (Raise x, World (mkDTMF (PList items) None) ∅).
Proof.
  intros items entries.
  assert (He : Forall2 entry_of items entries) by (repeat constructor).
  assert (Hex : Exists (λ e : string * Z, (e.1 ∉ SYMBOLS)) entries).
  { apply Exists_cons_tl, Exists_cons_hd. simpl.
    apply (bool_decide_unpack _). vm_compute. exact I. }
  split; [exact He|]. split; [exact Hex|].
  exact (unknown_symbol_fails_fast exact no_text items entries "test.wav" true fresh He Hex).
Defined.

(** ** The container encoder *)

(** The frame bytes of a buffer, four for each sample. *)
Definition packed_frames (data : list Z) : list Byte.byte :=
  data ≫= λ i, [byte_of_Z i; byte_of_Z (i ≫ 8); byte_of_Z (i ≫ 16); byte_of_Z (i ≫ 24)].

Definition in_c_int (i : Z) : Prop := - 2 ^ 31 <= i < 2 ^ 31.

(** The file [save_wave_file] leaves for the buffer [data]. *)
Definition saved_wave (data : list Z) : wave_file :=
  WaveFile NUMBER_OF_CHANNELS SAMPLE_WIDTH SAMPLE_RATE (Z.of_nat (length data))
           COMPRESSION_TYPE COMPRESSION_NAME (packed_frames data).

Lemma struct_pack_i_ok (i : Z) :
  in_c_int i →
  struct_pack_i i =
  Ok [byte_of_Z i; byte_of_Z (i ≫ 8); byte_of_Z (i ≫ 16); byte_of_Z (i ≫ 24)].
Proof.
  intros Hi. unfold struct_pack_i. rewrite bool_decide_eq_true_2 by exact Hi. reflexivity.
Qed.

Lemma packed_frames_cons (i : Z) (data : list Z) :
  packed_frames (i :: data) =
  [byte_of_Z i; byte_of_Z (i ≫ 8); byte_of_Z (i ≫ 16); byte_of_Z (i ≫ 24)] ++
  packed_frames data.
Proof. reflexivity. Qed.

Lemma length_packed_frames (data : list Z) :
  length (packed_frames data) = (4 * length data)%nat.
Proof.
  induction data as [|i data IH]; [reflexivity|].
  rewrite packed_frames_cons, length_app, IH. simpl. lia.
Qed.

(** A reader of the saved file finds twice the frames of the buffer: four
    bytes a sample, at two bytes a frame. *)
Lemma frames_on_file_saved (data : list Z) :
  frames_on_file (saved_wave data) = 2 * Z.of_nat (length data).
Proof.
  unfold frames_on_file, saved_wave. cbn [frames nchannels sampwidth].
  rewrite length_packed_frames. unfold NUMBER_OF_CHANNELS, SAMPLE_WIDTH.
  rewrite Nat2Z.inj_mul. change (Z.of_nat 4) with 4. change (1 * 2) with 2.
  symmetry. apply Z.div_unique_exact; lia.
Qed.

Lemma on_wave_insert (path : string) (f : wave_file → wave_file) (wf : wave_file)
    (s : DTMF) (fs : gmap string file) :
  on_wave path f (World s (<[path := Wave wf]> fs)) =
  (Ok (), World s (<[path := Wave (f wf)]> fs)).
Proof.
  unfold on_wave, update_files. simpl. rewrite alter_insert_eq. reflexivity.
Qed.

(** The writing loop of [save_wave_file]. *)
Lemma write_loop (path : string) (data : list Z) (wf : wave_file)
    (s : DTMF) (fs : gmap string file) :
  Forall in_c_int data →
  for_each data
    (λ i, packed ← lift (struct_pack_i i); on_wave path (writeframes packed))
    (World s (<[path := Wave wf]> fs)) =
  (Ok (), World s (<[path := Wave
     (WaveFile (nchannels wf) (sampwidth wf) (framerate wf) (nframes wf)
               (comptype wf) (compname wf) (frames wf ++ packed_frames data))]> fs)).
Proof.
  intros Hall. revert wf. induction Hall as [|i data Hi _ IH]; intros wf.
  - change (packed_frames []) with (@nil Byte.byte). rewrite app_nil_r.
    destruct wf; reflexivity.
  - cbn [for_each].
    erewrite M_bind_ok.
    2: { erewrite M_bind_ok; [|unfold lift; rewrite (struct_pack_i_ok i Hi); reflexivity].
         apply on_wave_insert. }
    rewrite IH, packed_frames_cons. unfold writeframes.
    cbn [nchannels sampwidth framerate nframes comptype compname frames].
    rewrite <- app_assoc. reflexivity.
Qed.

Lemma save_wave_file_stored (fp : binary64) (path : string) (sequence : pyval)
    (data : list Z) (fs : gmap string file) :
  data ≠ [] →
  Forall in_c_int data →
  save_wave_file fp path (World (mkDTMF sequence (Some data)) fs) =
  (Ok (), World (mkDTMF sequence (Some data)) (<[path := Wave (saved_wave data)]> fs)).
Proof.
  intros Hne Hall. unfold save_wave_file, saved_wave.
  erewrite M_bind_ok; [|reflexivity]. cbn [_raw_data self].
  rewrite bool_decide_eq_false_2 by (destruct data; [congruence|simpl; lia]).
  erewrite M_bind_ok; [|reflexivity].
  erewrite M_bind_ok; [|reflexivity].
  erewrite M_bind_ok; [|apply on_wave_insert].
  erewrite M_bind_ok; [|apply on_wave_insert].
  erewrite M_bind_ok; [|apply on_wave_insert].
  erewrite M_bind_ok; [|reflexivity]. cbn [self _raw_data].
  erewrite M_bind_ok; [|reflexivity].
  erewrite M_bind_ok; [|apply on_wave_insert].
  erewrite M_bind_ok; [|apply on_wave_insert].
  cbn [default from_option].
  rewrite write_loop by exact Hall. reflexivity.
Qed.

(** Every sample of a sub-buffer fits a C int. *)
Lemma synthesised_bounds (fp : binary64) (e : string * Z) (b : list Z) :
  binary64_ok fp → synthesised fp e b → Forall (λ x, - scale <= x <= scale) b.
Proof.
  intros Hfp (f1 & f2 & _ & Hg). apply generate_tone_inv in Hg as (_ & n & _ & ->).
  apply Forall_fmap, Forall_forall. intros i _. apply (tone_sample_bounds fp f1 f2 i Hfp).
Qed.

Lemma synthesised_in_c_int (fp : binary64) (entries : list (string * Z))
    (bufs : list (list Z)) :
  binary64_ok fp → Forall2 (synthesised fp) entries bufs → Forall in_c_int (concat bufs).
Proof.
  intros Hfp Hs. apply Forall_concat.
  induction Hs as [|e b entries bufs Hb _ IH]; constructor; [|exact IH].
  eapply Forall_impl; [exact (synthesised_bounds fp e b Hfp Hb)|].
  unfold scale, in_c_int. intros x Hx. simpl in Hx. lia.
Qed.

(** What [create_dtmf_wave_file] leaves behind for a sequence whose entries
    synthesise and yield at least one sample, when no dump is asked for. *)
Lemma create_dtmf_wave_file_stored (fp : binary64) (json_loads : string → result pyval)
    (items : list pyval) (entries : list (string * Z)) (bufs : list (list Z))
    (file_path : string) (w : world) :
  binary64_ok fp →
  Forall2 entry_of items entries →
  Forall2 (synthesised fp) entries bufs →
  concat bufs ≠ [] →
  create_dtmf_wave_file fp json_loads (PList items) file_path false w =
  (Ok (), World (mkDTMF (PList items) (Some (concat bufs)))
            (<[file_path := Wave (saved_wave (concat bufs))]>
               (delete "dtmf_dump.csv" (files w)))).
Proof.
  intros Hfp He Hs Hne. unfold create_dtmf_wave_file.
  erewrite M_bind_ok.
  2: { apply dtmf_sequence_setter_accepts. exact (entries_are_records items entries He). }
  erewrite M_bind_ok; [|apply (generate_raw_data_synthesised fp items entries bufs); eassumption].
  erewrite M_bind_ok; [|reflexivity].
  erewrite M_bind_ok; [|reflexivity].
  apply save_wave_file_stored; [exact Hne|exact (synthesised_in_c_int fp entries bufs Hfp Hs)].
Qed.

(** C1 fails on the code: for the sequence [("1", 100)] the writer is told
    a sample width of 2 bytes and 4410 frames, and is then given 17640 bytes
    of frames, 4 for each sample, which a reader takes for 8820 frames. *)
Theorem sample_width_mismatch (fp : binary64) :
  binary64_ok fp →
  ∃ (raw : list Z) (wf : wave_file),
    create_dtmf_wave_file fp no_text (PList [PTuple [PStr "1"; PInt 100]]) "test.wav" false
        fresh =
      (Ok (), World (mkDTMF (PList [PTuple [PStr "1"; PInt 100]]) (Some raw))
                    {["test.wav" := Wave wf]}) ∧
    length raw = 4410%nat ∧
    sampwidth wf = 2 ∧
    nframes wf = 4410 ∧
    length (frames wf) = (4 * 4410)%nat ∧
    frames_on_file wf = 8820.
Proof.
  intros Hfp.
  assert (Hk : Forall (λ e : string * Z, symbol_known e.1 = true ∧ 0 <= e.2 <= MAX_EXACT_MS)
                      [("1", 100)]).
  { repeat constructor; simpl; unfold MAX_EXACT_MS; lia. }
  pose proof (synthesised_all_exact fp _ Hk) as Hs.
  assert (Hlen : length (concat (entry_samples fp <$> [("1", 100)])) = 4410%nat).
  { apply Nat2Z.inj. rewrite length_concat_Zsum.
    rewrite !fmap_cons, !fmap_nil, !Zsum_cons, length_entry_samples
      by (reflexivity || (simpl; lia)).
    reflexivity. }
  eexists _, _. split; [|split; [exact Hlen|]].
  - rewrite (create_dtmf_wave_file_stored fp no_text _ [("1", 100)]
               (entry_samples fp <$> [("1", 100)]) _ _ Hfp).
    + reflexivity.
    + repeat constructor.
    + exact Hs.
    + intros Hnil. rewrite Hnil in Hlen. discriminate Hlen.
  - rewrite frames_on_file_saved. unfold saved_wave. cbn [sampwidth nframes frames].
    rewrite length_packed_frames, Hlen.
    repeat split; reflexivity.
Qed.

Lemma sample_width_mismatch_witness :
  binary64_ok exact ∧
  ∃ (raw : list Z) (wf : wave_file),
    create_dtmf_wave_file exact no_text (PList [PTuple [PStr "1"; PInt 100]]) "test.wav" false
        fresh =
      (Ok (), World (mkDTMF (PList [PTuple [PStr "1"; PInt 100]]) (Some raw))
                    {["test.wav" := Wave wf]}) ∧
    length raw = 4410%nat ∧
    sampwidth wf = 2 ∧
    nframes wf = 4410 ∧
    length (frames wf) = (4 * 4410)%nat ∧
    frames_on_file wf = 8820.
Proof.
  split; [exact exact_ok|]. exact (sample_width_mismatch exact exact_ok).
Defined.

(** * Further properties of the class *)

(** ** What the methods keep *)

(** [m] never changes the stored sequence. *)
Definition keeps_sequence {A} (m : M A) : Prop :=
  ∀ w, _dtmf_sequence (self (m w).2) = _dtmf_sequence (self w).

Lemma keeps_sequence_bind {A B} (m : M A) (f : A → M B) :
  keeps_sequence m → (∀ a, keeps_sequence (f a)) → keeps_sequence (m ≫= f).
Proof.
  intros Hm Hf w. unfold mbind, M_bind.
  specialize (Hm w). destruct (m w) as [[a|e] w']; simpl in *.
  - rewrite Hf. exact Hm.
  - exact Hm.
Qed.

Lemma keeps_sequence_lift {A} (r : result A) : keeps_sequence (lift r).
Proof. intros w. reflexivity. Qed.

Lemma keeps_sequence_ret {A} (a : A) : keeps_sequence (mret a).
Proof. intros w. reflexivity. Qed.

Lemma keeps_sequence_get_self : keeps_sequence get_self.
Proof. intros w. reflexivity. Qed.

Lemma keeps_sequence_set_raw_data (d : option (list Z)) : keeps_sequence (set_raw_data d).
Proof. intros w. reflexivity. Qed.

Lemma keeps_sequence_update_files (f : gmap string file → gmap string file) :
  keeps_sequence (update_files f).
Proof. intros w. reflexivity. Qed.

Lemma keeps_sequence_for_each {A} (l : list A) (body : A → M unit) :
  (∀ x, keeps_sequence (body x)) → keeps_sequence (for_each l body).
Proof.
  intros Hb. induction l as [|x l IH]; simpl.
  - apply keeps_sequence_ret.
  - apply keeps_sequence_bind; [apply Hb|intros _; exact IH].
Qed.

Create HintDb keeps.
#[local] Hint Resolve keeps_sequence_lift keeps_sequence_ret keeps_sequence_get_self
  keeps_sequence_set_raw_data keeps_sequence_update_files : keeps.

Ltac keeps_step :=
  first [ apply keeps_sequence_bind; [|intros ?]
        | apply keeps_sequence_for_each; intros ?
        | solve [unfold raise, wave_open, on_wave, append_text; auto with keeps] ].

Lemma keeps_sequence_generate_raw_data (fp : binary64) :
  keeps_sequence (generate_raw_data fp).
Proof.
  unfold generate_raw_data. apply keeps_sequence_bind; [auto with keeps|].
  intros s. destruct (_dtmf_sequence s); repeat keeps_step.
Qed.

Lemma keeps_sequence_save_wave_file (fp : binary64) (file_path : string) :
  keeps_sequence (save_wave_file fp file_path).
Proof.
  unfold save_wave_file. apply keeps_sequence_bind; [auto with keeps|]. intros s.
  apply keeps_sequence_bind.
  { destruct (_raw_data s) as [d|]; [case_bool_decide|];
      first [apply keeps_sequence_generate_raw_data | apply keeps_sequence_ret]. }
  intros _. repeat keeps_step.
Qed.

(** The stored sequence is [None] or a list of records. *)
Definition sequence_invariant (w : world) : Prop :=
  match _dtmf_sequence (self w) with
  | PNone => True
  | PList items => forallb is_record items = true
  | _ => False
  end.

Definition preserves_invariant {A} (m : M A) : Prop :=
  ∀ w, sequence_invariant w → sequence_invariant (m w).2.

Lemma preserves_invariant_bind {A B} (m : M A) (f : A → M B) :
  preserves_invariant m → (∀ a, preserves_invariant (f a)) →
  preserves_invariant (m ≫= f).
Proof.
  intros Hm Hf w Hw. unfold mbind, M_bind.
  specialize (Hm w Hw). destruct (m w) as [[a|e] w']; simpl in *.
  - apply Hf, Hm.
  - exact Hm.
Qed.

Lemma keeps_sequence_preserves {A} (m : M A) :
  keeps_sequence m → preserves_invariant m.
Proof.
  intros Hm w Hw. unfold sequence_invariant in *. rewrite Hm. exact Hw.
Qed.

(** What the setter leaves: the world as it was, or the world with a list
    of records stored. *)
Lemma dtmf_sequence_setter_cases json_loads (v : pyval) (w : world) :
  (dtmf_sequence_setter json_loads v w).2 = w ∨
  ∃ items, forallb is_record items = true ∧
           dtmf_sequence_setter json_loads v w =
           (Ok (), World (mkDTMF (PList items) (_raw_data (self w))) (files w)).
Proof.
  rewrite dtmf_sequence_setter_unfold.
  destruct (decoded json_loads v) as [v'|e]; [|left; reflexivity].
  case_bool_decide; [|left; reflexivity].
  destruct (dtmf_sequence_is_valid v') as [[|]|e] eqn:Hv; try (left; reflexivity).
  apply dtmf_sequence_is_valid_true in Hv as (items & -> & Hall).
  right. exists items. split; [exact Hall|reflexivity].
Qed.

Lemma preserves_invariant_setter json_loads (v : pyval) :
  preserves_invariant (dtmf_sequence_setter json_loads v).
Proof.
  intros w Hw.
  destruct (dtmf_sequence_setter_cases json_loads v w) as [->|(items & Hall & ->)].
  - exact Hw.
  - exact Hall.
Qed.

Lemma preserves_invariant_create (fp : binary64) json_loads (v : pyval) (path : string)
    (dump : bool) :
  preserves_invariant (create_dtmf_wave_file fp json_loads v path dump).
Proof.
  unfold create_dtmf_wave_file.
  apply preserves_invariant_bind; [apply preserves_invariant_setter|]. intros _.
  apply keeps_sequence_preserves.
  apply keeps_sequence_bind; [apply keeps_sequence_generate_raw_data|]. intros _.
  apply keeps_sequence_bind; [auto with keeps|]. intros _.
  apply keeps_sequence_bind; [|intros _; apply keeps_sequence_save_wave_file].
  destruct dump; [|auto with keeps].
  apply keeps_sequence_bind; [auto with keeps|]. intros _.
  apply keeps_sequence_bind; [auto with keeps|]. intros s.
  destruct (_raw_data s); repeat keeps_step.
Qed.

Lemma init_establishes_invariant json_loads (input_string input_list : pyval) (w : world) :
  sequence_invariant (__init__ json_loads input_string input_list w).2.
Proof.
  unfold __init__.
  erewrite M_bind_ok; [|reflexivity].
  erewrite M_bind_ok; [|reflexivity].
  set (w0 := World _ _).
  assert (H0 : sequence_invariant w0) by exact I.
  revert H0. generalize w0. clear w0. intros w0 H0.
  destruct (negb (is_None input_string)).
  - revert w0 H0. apply preserves_invariant_bind.
    + apply keeps_sequence_preserves. auto with keeps.
    + intros a. apply preserves_invariant_setter.
  - destruct (negb (is_None input_list)).
    + apply preserves_invariant_setter, H0.
    + exact H0.
Qed.

(** X1: the constructor leaves [_dtmf_sequence] either [None] or a list of
    records (lists or tuples that start with a string and an integer), and
    every method keeps it so, whether it returns or raises. *)
Theorem sequence_invariant_kept (fp : binary64)
    (json_loads : string → result pyval) (v input_string input_list : pyval)
    (path : string) (dump : bool) (w : world) :
  sequence_invariant w →
  sequence_invariant (__init__ json_loads input_string input_list w).2 ∧
  sequence_invariant (dtmf_sequence_setter json_loads v w).2 ∧
  sequence_invariant (generate_raw_data fp w).2 ∧
  sequence_invariant (save_wave_file fp path w).2 ∧
  sequence_invariant (create_dtmf_wave_file fp json_loads v path dump w).2.
Proof.
  intros Hw. split; [apply init_establishes_invariant|].
  split; [apply preserves_invariant_setter, Hw|].
  split; [apply keeps_sequence_preserves, Hw; apply keeps_sequence_generate_raw_data|].
  split; [apply keeps_sequence_preserves, Hw; apply keeps_sequence_save_wave_file|].
  apply preserves_invariant_create, Hw.
Qed.

Lemma sequence_invariant_kept_witness :
  let v := PList [PTuple [PStr "1"; PInt 100]; PList [PStr "S"; PInt 50]] in
  sequence_invariant fresh ∧
  sequence_invariant (__init__ no_text PNone v fresh).2 ∧
  sequence_invariant (dtmf_sequence_setter no_text v fresh).2 ∧
  sequence_invariant (generate_raw_data exact fresh).2 ∧
  sequence_invariant (save_wave_file exact "test.wav" fresh).2 ∧
  sequence_invariant (create_dtmf_wave_file exact no_text v "test.wav" true fresh).2.
Proof.
  intros v.
  assert (H : sequence_invariant fresh) by exact I.
  split; [exact H|].
  exact (sequence_invariant_kept exact no_text v PNone v "test.wav" true fresh H).
Defined.

(** ** Outcomes of generation *)

Lemma is_record_entry (item : pyval) :
  is_record item = true → ∃ e, entry_of item e.
Proof.
  destruct item as [| | | | |l|l| |]; simpl; try discriminate.
  - destruct l as [|[] [|[] l]]; try discriminate. intros _.
    exists (s, z). split; reflexivity.
  - destruct l as [|[] [|[] l]]; try discriminate. intros _.
    exists (s, z). split; reflexivity.
Qed.

Lemma records_entries (items : list pyval) :
  forallb is_record items = true → ∃ entries, Forall2 entry_of items entries.
Proof.
  induction items as [|item items IH]; simpl; intros H.
  - exists []. constructor.
  - apply andb_true_iff in H as [Hi Hr].
    destruct (is_record_entry item Hi) as [e He].
    destruct (IH Hr) as [entries Hes].
    exists (e :: entries). constructor; assumption.
Qed.

(** On a list of records the loop returns a buffer, overflows, or meets a
    symbol outside the table. *)
Lemma assemble_outcomes (fp : binary64) (items : list pyval)
    (entries : list (string * Z)) (acc : list Z) :
  Forall2 entry_of items entries →
  (∃ data, assemble fp items acc = Ok data) ∨
  assemble fp items acc = Raise OverflowError ∨
  (∃ k, symbol_known k = false ∧ assemble fp items acc = Raise (KeyError (PStr k))).
Proof.
  intros He. revert acc. induction He as [|item e items entries Hie _ IH]; intros acc.
  - left. exists acc. reflexivity.
  - rewrite assemble_cons. destruct (symbol_known e.1) eqn:Hk.
    + destruct (entry_tone_known fp item e Hie Hk) as [(b & _ & ->)| ->].
      * simpl. apply IH.
      * right. left. reflexivity.
    + rewrite (entry_tone_unknown fp item e Hie Hk).
      right. right. exists e.1. split; [exact Hk|reflexivity].
Qed.

(** X2: from a state the class can reach, [generate_raw_data] has four
    outcomes only: [AttributeError] when no sequence is stored, [KeyError]
    for a symbol outside the table, [OverflowError] for a duration too
    large for a float, or a stored buffer; in the three failing cases
    nothing changes.  It raises no [IndexError], [TypeError] or
    [AssertionError]. *)
Theorem generate_raw_data_outcomes (fp : binary64) (w : world) :
  sequence_invariant w →
  (_dtmf_sequence (self w) = PNone ∧
   generate_raw_data fp w = (Raise (AttributeError "No dtmf sequence set"), w)) ∨
  (∃ raw, generate_raw_data fp w =
          (Ok (), World (mkDTMF (_dtmf_sequence (self w)) (Some raw)) (files w))) ∨
  (∃ k, (k ∉ SYMBOLS) ∧ generate_raw_data fp w = (Raise (KeyError (PStr k)), w)) ∨
  generate_raw_data fp w = (Raise OverflowError, w).
Proof.
  destruct w as [[sequence raw0] fs]. unfold sequence_invariant. simpl.
  destruct sequence as [| | | | |items| | |]; try contradiction.
  - intros _. left. split; reflexivity.
  - intros Hall. right.
    destruct (records_entries items Hall) as [entries He].
    rewrite generate_raw_data_list.
    destruct (assemble_outcomes fp items entries [] He) as [[data ->]|[->|(k & Hk & ->)]].
    + left. exists data. reflexivity.
    + right. right. reflexivity.
    + right. left. exists k. split; [|reflexivity].
      intros Hin. apply symbol_known_iff in Hin. congruence.
Qed.

Lemma generate_raw_data_outcomes_witness :
  let w := World (mkDTMF (PList [PTuple [PStr "5"; PInt 20]]) None) ∅ in
  sequence_invariant w ∧
  ((_dtmf_sequence (self w) = PNone ∧
    generate_raw_data exact w = (Raise (AttributeError "No dtmf sequence set"), w)) ∨
   (∃ raw, generate_raw_data exact w =
           (Ok (), World (mkDTMF (_dtmf_sequence (self w)) (Some raw)) (files w))) ∨
   (∃ k, (k ∉ SYMBOLS) ∧ generate_raw_data exact w = (Raise (KeyError (PStr k)), w)) ∨
   generate_raw_data exact w = (Raise OverflowError, w)).
Proof.
  intros w.
  assert (H : sequence_invariant w) by reflexivity.
  split; [exact H|].
  exact (generate_raw_data_outcomes exact w H).
Defined.

(** ** More on the validator *)

(** On an element of an admitted type that is not a record the loop answers
    [False] or raises [IndexError] or [TypeError]. *)
Lemma check_items_not_record_raise (item : pyval) (rest : list pyval) (e : exn) :
  type_of item ∈ VALID_SEQUENCE_TYPES →
  is_record item = false →
  check_items (item :: rest) = Raise e → e = IndexError ∨ e = TypeError.
Proof.
  intros Hty Hr. apply valid_type_cases in Hty.
  destruct Hty as [[l ->]|[[l ->]|[l ->]]].
  - destruct l as [|x0 [|x1 l]]; simpl.
    + intros [= <-]. left. reflexivity.
    + case_bool_decide; simpl; intros [= <-]; left; reflexivity.
    + destruct x0; simpl in *; try (intros [=]; fail);
        destruct x1; simpl in *; try (intros [=]; fail); discriminate Hr.
  - destruct l as [|x0 [|x1 l]]; simpl.
    + intros [= <-]. left. reflexivity.
    + case_bool_decide; simpl; intros [= <-]; left; reflexivity.
    + destruct x0; simpl in *; try (intros [=]; fail);
        destruct x1; simpl in *; try (intros [=]; fail); discriminate Hr.
  - simpl. intros [= <-]. right. reflexivity.
Qed.

Lemma check_items_raise (items : list pyval) (e : exn) :
  Forall (λ item, type_of item ∈ VALID_SEQUENCE_TYPES) items →
  check_items items = Raise e →
  (e = IndexError ∨ e = TypeError) ∧ Exists (λ item, is_record item = false) items.
Proof.
  induction 1 as [|item items Hty _ IH]; [discriminate|].
  destruct (is_record item) eqn:Hr.
  - rewrite (check_items_record _ _ Hr). intros Hrest.
    destruct (IH Hrest) as [He Hex]. split; [exact He|]. apply Exists_cons_tl, Hex.
  - intros Hraise. split.
    + exact (check_items_not_record_raise item items e Hty Hr Hraise).
    + apply Exists_cons_hd, Hr.
Qed.

(** X3: the validator raises only [IndexError] or [TypeError], and only on a
    list whose elements are all lists, tuples or sets and one of which is
    not a record; on every other value it answers [True] or [False]. *)
Theorem dtmf_sequence_is_valid_raises (v : pyval) (e : exn) :
  dtmf_sequence_is_valid v = Raise e →
  (e = IndexError ∨ e = TypeError) ∧
  ∃ items, v = PList items ∧
           Forall (λ item, type_of item ∈ VALID_SEQUENCE_TYPES) items ∧
           Exists (λ item, is_record item = false) items.
Proof.
  unfold dtmf_sequence_is_valid.
  destruct v as [| | | | |items| | |]; simpl; try discriminate.
  case_bool_decide as Hc; [discriminate|].
  assert (Hty : Forall (λ item, type_of item ∈ VALID_SEQUENCE_TYPES) items).
  { apply count_occ_false_0 in Hc. rewrite Forall_fmap in Hc.
    eapply Forall_impl; [exact Hc|]. simpl. intros x Hx.
    apply bool_decide_eq_true in Hx. exact Hx. }
  intros Hr. destruct (check_items_raise items e Hty Hr) as [He Hex].
  split; [exact He|]. exists items. split; [reflexivity|]. split; assumption.
Qed.

Lemma dtmf_sequence_is_valid_raises_witness :
  dtmf_sequence_is_valid (PList [PTuple [PStr "1"; PInt 100]; PList [PInt 5]]) =
    Raise IndexError ∧
  (IndexError = IndexError ∨ IndexError = TypeError) ∧
  ∃ items, PList [PTuple [PStr "1"; PInt 100]; PList [PInt 5]] = PList items ∧
           Forall (λ item, type_of item ∈ VALID_SEQUENCE_TYPES) items ∧
           Exists (λ item, is_record item = false) items.
Proof.
  assert (H : dtmf_sequence_is_valid (PList [PTuple [PStr "1"; PInt 100]; PList [PInt 5]]) =
              Raise IndexError) by reflexivity.
  split; [exact H|].
  exact (dtmf_sequence_is_valid_raises _ _ H).
Defined.

Lemma check_items_app_records (pre rest : list pyval) :
  forallb is_record pre = true → check_items (pre ++ rest) = check_items rest.
Proof.
  induction pre as [|item pre IH]; [reflexivity|].
  cbn [forallb]. intros H. apply andb_true_iff in H as [Hi Hp].
  rewrite <- app_comm_cons, (check_items_record _ _ Hi). apply IH, Hp.
Qed.

(** X4: a set is one of [VALID_SEQUENCE_TYPES], yet no set is subscriptable:
    in a list of lists, tuples and sets whose elements before a set are
    records, the validator raises [TypeError] at the set, and the setter
    passes the error on with the instance unchanged. *)
Theorem set_element_raises_TypeError
    (json_loads : string → result pyval) (pre post l : list pyval) (w : world) :
  forallb is_record pre = true →
  Forall (λ item, type_of item ∈ VALID_SEQUENCE_TYPES) post →
  dtmf_sequence_is_valid (PList (pre ++ PSet l :: post)) = Raise TypeError ∧
  dtmf_sequence_setter json_loads (PList (pre ++ PSet l :: post)) w = (Raise TypeError, w).
Proof.
  intros Hpre Hpost.
  assert (Hv : dtmf_sequence_is_valid (PList (pre ++ PSet l :: post)) = Raise TypeError).
  { unfold dtmf_sequence_is_valid. simpl.
    rewrite bool_decide_eq_false_2.
    - rewrite check_items_app_records by exact Hpre. reflexivity.
    - intros Hn. apply Hn. apply count_occ_false_0. rewrite Forall_fmap.
      apply Forall_app. split.
      + apply forallb_Forall_true in Hpre. eapply Forall_impl; [exact Hpre|].
        simpl. intros x Hx. apply bool_decide_eq_true, is_record_type, Hx.
      + constructor.
        * reflexivity.
        * eapply Forall_impl; [exact Hpost|]. simpl. intros x Hx.
          apply bool_decide_eq_true, Hx. }
  split; [exact Hv|].
  rewrite dtmf_sequence_setter_unfold. unfold decoded. simpl. rewrite Hv. reflexivity.
Qed.

Lemma set_element_raises_TypeError_witness :
  let pre := [PTuple [PStr "1"; PInt 100]] in
  let post := [PList [PStr "2"; PInt 100]] in
  forallb is_record pre = true ∧
  Forall (λ item, type_of item ∈ VALID_SEQUENCE_TYPES) post ∧
  dtmf_sequence_is_valid (PList (pre ++ PSet [PStr "S"; PInt 50] :: post)) = Raise TypeError ∧
  dtmf_sequence_setter no_text (PList (pre ++ PSet [PStr "S"; PInt 50] :: post)) fresh =
    (Raise TypeError, fresh).
Proof.
  intros pre post.
  assert (Hpre : forallb is_record pre = true) by reflexivity.
  assert (Hpost : Forall (λ item, type_of item ∈ VALID_SEQUENCE_TYPES) post).
  { repeat constructor. }
  split; [exact Hpre|]. split; [exact Hpost|].
  exact (set_element_raises_TypeError no_text pre post [PStr "S"; PInt 50] fresh Hpre Hpost).
Defined.

(** Two records that read as the same entry. *)
Definition same_entry (a b : pyval) : Prop := ∃ e, entry_of a e ∧ entry_of b e.

Lemma entry_of_long (k : string) (d : Z) (extra : list pyval) :
  entry_of (PList (PStr k :: PInt d :: extra)) (k, d) ∧
  entry_of (PTuple (PStr k :: PInt d :: extra)) (k, d).
Proof. repeat split; reflexivity. Qed.

(** X5: the validator never looks past the second component, and neither
    does generation: a record, list or tuple, with further components is
    accepted, and two sequences whose records agree on their first two
    components -- whatever follows them, and whether they are lists or
    tuples -- are both accepted and yield the same buffer, or the same
    error. *)
Theorem extra_components_are_ignored (fp : binary64)
    (l1 l2 : list pyval) (raw0 : option (list Z)) (fs : gmap string file) :
  Forall2 same_entry l1 l2 →
  (∀ (k : string) (d : Z) (extra : list pyval),
     same_entry (PList (PStr k :: PInt d :: extra)) (PList [PStr k; PInt d]) ∧
     same_entry (PTuple (PStr k :: PInt d :: extra)) (PTuple [PStr k; PInt d]) ∧
     same_entry (PTuple (PStr k :: PInt d :: extra)) (PList [PStr k; PInt d])) ∧
  dtmf_sequence_is_valid (PList l1) = Ok true ∧
  dtmf_sequence_is_valid (PList l2) = Ok true ∧
  (generate_raw_data fp (World (mkDTMF (PList l1) raw0) fs)).1 =
    (generate_raw_data fp (World (mkDTMF (PList l2) raw0) fs)).1 ∧
  _raw_data (self (generate_raw_data fp (World (mkDTMF (PList l1) raw0) fs)).2) =
    _raw_data (self (generate_raw_data fp (World (mkDTMF (PList l2) raw0) fs)).2).
Proof.
  intros Hsame. split; [|split; [|split]].
  - intros k d extra.
    repeat split; exists (k, d); split; first [apply entry_of_long | split; reflexivity].
  - apply dtmf_sequence_is_valid_true. exists l1. split; [reflexivity|].
    apply forallb_Forall_true.
    induction Hsame as [|a b l1 l2 (e & Ha & _) _ IH]; constructor; [|exact IH].
    exact (entry_of_is_record a e Ha).
  - apply dtmf_sequence_is_valid_true. exists l2. split; [reflexivity|].
    apply forallb_Forall_true.
    induction Hsame as [|a b l1 l2 (e & _ & Hb) _ IH]; constructor; [|exact IH].
    exact (entry_of_is_record b e Hb).
  - rewrite !generate_raw_data_list.
    assert (Heq : assemble fp l1 [] = assemble fp l2 []).
    { apply assemble_ext. eapply Forall2_impl; [exact Hsame|].
      intros a b (e & Ha & Hb).
      rewrite (entry_tone_entry fp a e Ha), (entry_tone_entry fp b e Hb). reflexivity. }
    rewrite Heq. destruct (assemble fp l2 []); split; reflexivity.
Qed.

Lemma extra_components_are_ignored_witness :
  let l1 := [PTuple [PStr "S"; PInt 50; PStr "pause"];
             PList [PStr "1"; PInt 100; PInt 7; PNone]] in
  let l2 := [PList [PStr "S"; PInt 50]; PTuple [PStr "1"; PInt 100]] in
  Forall2 same_entry l1 l2 ∧
  (∀ (k : string) (d : Z) (extra : list pyval),
     same_entry (PList (PStr k :: PInt d :: extra)) (PList [PStr k; PInt d]) ∧
     same_entry (PTuple (PStr k :: PInt d :: extra)) (PTuple [PStr k; PInt d]) ∧
     same_entry (PTuple (PStr k :: PInt d :: extra)) (PList [PStr k; PInt d])) ∧
  dtmf_sequence_is_valid (PList l1) = Ok true ∧
  dtmf_sequence_is_valid (PList l2) = Ok true ∧
  (generate_raw_data exact (World (mkDTMF (PList l1) None) ∅)).1 =
    (generate_raw_data exact (World (mkDTMF (PList l2) None) ∅)).1 ∧
  _raw_data (self (generate_raw_data exact (World (mkDTMF (PList l1) None) ∅)).2) =
    _raw_data (self (generate_raw_data exact (World (mkDTMF (PList l2) None) ∅)).2).
Proof.
  intros l1 l2.
  assert (Hs : Forall2 same_entry l1 l2).
  { constructor; [exists ("S", 50); repeat split|].
    constructor; [exists ("1", 100); repeat split|]. constructor. }
  split; [exact Hs|].
  exact (extra_components_are_ignored exact l1 l2 None ∅ Hs).
Defined.

(** ** Text candidates, the getter and the constructor *)

(** X6: a text candidate is decoded once.  When decoding raises, the setter
    raises the same error and changes nothing; when it yields text again,
    that text is dropped without a second decoding; otherwise the setter
    does what it does for the decoded value handed over directly. *)
Theorem text_candidate_is_decoded_once
    (json_loads : string → result pyval) (s : string) (w : world) :
  dtmf_sequence_setter json_loads (PStr s) w =
  match json_loads s with
  | Raise e => (Raise e, w)
  | Ok v =>
      if bool_decide (type_of v = TStr) then (Ok (), w)
      else dtmf_sequence_setter json_loads v w
  end.
Proof.
  rewrite dtmf_sequence_setter_unfold. unfold decoded. simpl.
  destruct (json_loads s) as [v|e]; [|reflexivity].
  rewrite dtmf_sequence_setter_unfold. unfold decoded.
  destruct (bool_decide (type_of v = TStr)) eqn:Hs; [|reflexivity].
  apply bool_decide_eq_true in Hs. rewrite bool_decide_eq_false_2; [reflexivity|].
  rewrite Hs. discriminate.
Qed.

(** X7: after the setter has been handed a list of records, the getter
    returns that list; the buffer generated for the previous sequence is
    still in [_raw_data]. *)
Theorem setter_then_getter
    (json_loads : string → result pyval) (items : list pyval) (w : world) :
  forallb is_record items = true →
  (dtmf_sequence_setter json_loads (PList items) ≫= λ _, dtmf_sequence) w =
  (Ok (PList items), World (mkDTMF (PList items) (_raw_data (self w))) (files w)).
Proof.
  intros Hall. erewrite M_bind_ok; [|apply dtmf_sequence_setter_accepts, Hall].
  reflexivity.
Qed.

Lemma setter_then_getter_witness :
  let items := [PList [PStr "#"; PInt 30]] in
  let w := World (mkDTMF PNone (Some [1; 2; 3])) ∅ in
  forallb is_record items = true ∧
  (dtmf_sequence_setter no_text (PList items) ≫= λ _, dtmf_sequence) w =
  (Ok (PList items), World (mkDTMF (PList items) (_raw_data (self w))) (files w)).
Proof.
  intros items w.
  assert (H : forallb is_record items = true) by reflexivity.
  split; [exact H|].
  exact (setter_then_getter no_text items w H).
Defined.



(** ** Saving *)

(** [save_wave_file] on a state without a buffer, or with an empty one:
    generation runs first. *)
Lemma save_wave_file_generate_first (fp : binary64) (path : string) (w : world)
    (sequence : pyval) (data : list Z) (fs : gmap string file) :
  (_raw_data (self w) = None ∨ _raw_data (self w) = Some []) →
  generate_raw_data fp w = (Ok (), World (mkDTMF sequence (Some data)) fs) →
  Forall in_c_int data →
  save_wave_file fp path w =
  (Ok (), World (mkDTMF sequence (Some data)) (<[path := Wave (saved_wave data)]> fs)).
Proof.
  intros Hraw Hgen Hall. unfold save_wave_file, saved_wave.
  erewrite M_bind_ok; [|reflexivity].
  erewrite M_bind_ok.
  2: { destruct Hraw as [-> | ->]; [exact Hgen|].
       rewrite bool_decide_eq_true_2 by (simpl; lia). exact Hgen. }
  erewrite M_bind_ok; [|reflexivity].
  erewrite M_bind_ok; [|apply on_wave_insert].
  erewrite M_bind_ok; [|apply on_wave_insert].
  erewrite M_bind_ok; [|apply on_wave_insert].
  erewrite M_bind_ok; [|reflexivity]. cbn [self _raw_data].
  erewrite M_bind_ok; [|reflexivity].
  erewrite M_bind_ok; [|apply on_wave_insert].
  erewrite M_bind_ok; [|apply on_wave_insert].
  cbn [default from_option].
  rewrite write_loop by exact Hall. reflexivity.
Qed.

Lemma generate_raw_data_files (fp : binary64) (w : world) :
  files (generate_raw_data fp w).2 = files w.
Proof.
  destruct w as [[sequence raw0] fs].
  unfold generate_raw_data, mbind, M_bind, get_self, raise, lift, set_raw_data.
  destruct sequence; simpl; try reflexivity;
    match goal with
    | |- context [assemble fp ?l ?acc] => destruct (assemble fp l acc); reflexivity
    end.
Qed.

(** X9: [save_wave_file] generates when [_raw_data] is [None] or empty, and
    opens the file only afterwards: when generation raises, the same error
    is raised and no file is created or touched. *)
Theorem save_wave_file_fails_before_opening (fp : binary64)
    (path : string) (w w' : world) (e : exn) :
  (_raw_data (self w) = None ∨ _raw_data (self w) = Some []) →
  generate_raw_data fp w = (Raise e, w') →
  save_wave_file fp path w = (Raise e, w') ∧ files w' = files w.
Proof.
  intros Hraw Hgen. split.
  - unfold save_wave_file.
    erewrite M_bind_ok; [|reflexivity].
    apply M_bind_raise.
    destruct Hraw as [-> | ->]; [exact Hgen|].
    rewrite bool_decide_eq_true_2 by (simpl; lia). exact Hgen.
  - pose proof (generate_raw_data_files fp w) as Hf. rewrite Hgen in Hf. exact Hf.
Qed.

Lemma save_wave_file_fails_before_opening_witness :
  let w := World (mkDTMF (PList [PTuple [PStr "Z"; PInt 10]]) (Some [])) ∅ in
  (_raw_data (self w) = None ∨ _raw_data (self w) = Some []) ∧
  generate_raw_data exact w = (Raise (KeyError (PStr "Z")), w) ∧
  save_wave_file exact "out.wav" w = (Raise (KeyError (PStr "Z")), w) ∧ files w = files w.
Proof.
  intros w.
  assert (H1 : _raw_data (self w) = None ∨ _raw_data (self w) = Some []) by (right; reflexivity).
  assert (H2 : generate_raw_data exact w = (Raise (KeyError (PStr "Z")), w)) by reflexivity.
  split; [exact H1|]. split; [exact H2|].
  exact (save_wave_file_fails_before_opening exact "out.wav" w w _ H1 H2).
Defined.

(** ** The whole pipeline *)

(** The text of the dump: every sample in decimal, each followed by a
    comma. *)
Definition csv_text (data : list Z) : string :=
  foldr (λ d acc, py_str d +:+ "," +:+ acc) "" data.

Lemma string_app_assoc (s1 s2 s3 : string) : (s1 +:+ s2) +:+ s3 = s1 +:+ s2 +:+ s3.
Proof.
  induction s1 as [|a s1 IH]; [reflexivity|].
  change (String a ((s1 +:+ s2) +:+ s3) = String a (s1 +:+ s2 +:+ s3)).
  f_equal. exact IH.
Qed.

Lemma string_app_nil_r (s : string) : s +:+ "" = s.
Proof.
  induction s as [|a s IH]; [reflexivity|].
  change (String a (s +:+ "") = String a s). f_equal. exact IH.
Qed.

Lemma append_text_insert (path s t : string) (st : DTMF) (fs : gmap string file) :
  append_text path s (World st (<[path := Text t]> fs)) =
  (Ok (), World st (<[path := Text (t +:+ s)]> fs)).
Proof.
  unfold append_text, update_files. simpl. rewrite alter_insert_eq. reflexivity.
Qed.

(** The dumping loop of [create_dtmf_wave_file]. *)
Lemma dump_loop (path : string) (data : list Z) (t : string)
    (st : DTMF) (fs : gmap string file) :
  for_each data (λ d, append_text path (py_str d);; append_text path ",")
    (World st (<[path := Text t]> fs)) =
  (Ok (), World st (<[path := Text (t +:+ csv_text data)]> fs)).
Proof.
  revert t. induction data as [|d data IH]; intros t.
  - simpl. rewrite string_app_nil_r. reflexivity.
  - cbn [for_each].
    erewrite M_bind_ok.
    2: { erewrite M_bind_ok; [|apply append_text_insert]. apply append_text_insert. }
    rewrite IH. cbn [csv_text foldr]. fold (csv_text data).
    rewrite !string_app_assoc. reflexivity.
Qed.

(** [save_wave_file] on the state generation leaves, the buffer empty or
    not. *)
Lemma save_wave_file_entries (fp : binary64) (items : list pyval)
    (entries : list (string * Z)) (bufs : list (list Z))
    (file_path : string) (fs : gmap string file) :
  binary64_ok fp →
  Forall2 entry_of items entries →
  Forall2 (synthesised fp) entries bufs →
  save_wave_file fp file_path (World (mkDTMF (PList items) (Some (concat bufs))) fs) =
  (Ok (), World (mkDTMF (PList items) (Some (concat bufs)))
            (<[file_path := Wave (saved_wave (concat bufs))]> fs)).
Proof.
  intros Hfp He Hs.
  pose proof (synthesised_in_c_int fp entries bufs Hfp Hs) as Hc.
  destruct (concat bufs) as [|x raw'] eqn:Hraw.
  - apply save_wave_file_generate_first.
    + right. reflexivity.
    + rewrite <- Hraw. apply (generate_raw_data_synthesised fp items entries); assumption.
    + constructor.
  - apply save_wave_file_stored; [discriminate|exact Hc].
Qed.



Lemma dtmf_sequence_setter_dropped json_loads (v v' : pyval) (w : world) :
  decoded json_loads v = Ok v' → silently_dropped v' →
  dtmf_sequence_setter json_loads v w = (Ok (), w).
Proof.
  intros Hdec Hs. rewrite dtmf_sequence_setter_unfold, Hdec.
  case_bool_decide as Hty; [|reflexivity].
  rewrite (silently_dropped_invalid v' Hs Hty). reflexivity.
Qed.

(** X11: when the candidate is dropped without an error (it is not a list,
    or an element is not a list, tuple or set) while a sequence is stored,
    [create_dtmf_wave_file] goes on and does exactly what it does when the
    stored sequence is handed over again: it writes the file of the old
    sequence. *)
Theorem dropped_candidate_replays_stored_sequence (fp : binary64)
    (json_loads : string → result pyval) (v v' : pyval) (items : list pyval)
    (file_path : string) (dump_to_csv : bool) (w : world) :
  decoded json_loads v = Ok v' →
  silently_dropped v' →
  _dtmf_sequence (self w) = PList items →
  forallb is_record items = true →
  create_dtmf_wave_file fp json_loads v file_path dump_to_csv w =
  create_dtmf_wave_file fp json_loads (PList items) file_path dump_to_csv w.
Proof.
  intros Hdec Hs Hseq Hall. unfold create_dtmf_wave_file.
  assert (Hsame : dtmf_sequence_setter json_loads (PList items) w = (Ok (), w)).
  { rewrite dtmf_sequence_setter_accepts by exact Hall.
    destruct w as [[sequence raw0] fs]. simpl in *. rewrite Hseq. reflexivity. }
  rewrite (M_bind_ok _ _ w w () (dtmf_sequence_setter_dropped _ _ _ _ Hdec Hs)).
  rewrite (M_bind_ok _ _ w w () Hsame). reflexivity.
Qed.

Lemma dropped_candidate_replays_stored_sequence_witness :
  let items := [PTuple [PStr "1"; PInt 100]] in
  let w := World (mkDTMF (PList items) None) ∅ in
  decoded no_text (PTuple [PTuple [PStr "2"; PInt 100]]) =
    Ok (PTuple [PTuple [PStr "2"; PInt 100]]) ∧
  silently_dropped (PTuple [PTuple [PStr "2"; PInt 100]]) ∧
  _dtmf_sequence (self w) = PList items ∧
  forallb is_record items = true ∧
  create_dtmf_wave_file exact no_text (PTuple [PTuple [PStr "2"; PInt 100]]) "test.wav" false w =
  create_dtmf_wave_file exact no_text (PList items) "test.wav" false w.
Proof.
  intros items w.
  assert (H1 : decoded no_text (PTuple [PTuple [PStr "2"; PInt 100]]) =
               Ok (PTuple [PTuple [PStr "2"; PInt 100]])) by reflexivity.
  assert (H2 : silently_dropped (PTuple [PTuple [PStr "2"; PInt 100]])) by exact I.
  assert (H3 : _dtmf_sequence (self w) = PList items) by reflexivity.
  assert (H4 : forallb is_record items = true) by reflexivity.
  split; [exact H1|]. split; [exact H2|]. split; [exact H3|]. split; [exact H4|].
  exact (dropped_candidate_replays_stored_sequence exact no_text _ _ items "test.wav" false w
           H1 H2 H3 H4).
Defined.

(** A malformed candidate, decoded or not, leaves the world as it was. *)
Lemma dtmf_sequence_setter_malformed json_loads (v : pyval) (w : world) :
  (∀ v', decoded json_loads v = Ok v' → malformed v') →
  (dtmf_sequence_setter json_loads v w).2 = w.
Proof.
  intros Hm. rewrite dtmf_sequence_setter_unfold.
  destruct (decoded json_loads v) as [v'|e] eqn:Hdec; [|reflexivity].
  case_bool_decide; [|reflexivity].
  pose proof (malformed_not_valid v' (Hm v' eq_refl)) as Hnv.
  destruct (dtmf_sequence_is_valid v') as [[|]|e]; try reflexivity. congruence.
Qed.

(** [json.loads] on the two texts of the examples below; every other text
    is refused. *)
Definition sample_loads (s : string) : result pyval :=
  if bool_decide (s = "[[1, 100]]") then Ok (PList [PList [PInt 1; PInt 100]])
  else if bool_decide (s = "null") then Ok PNone
  else Raise JSONDecodeError.

(** X12: when [input_string] is given, the constructor never falls back on
    [input_list]: if the text does not decode, or if what it decodes to --
    decoded once more by the setter when it is text again -- does not decode
    or is malformed, the instance is left with no sequence and no buffer,
    whatever [input_list] is. *)
Theorem init_never_falls_back
    (json_loads : string → result pyval) (s : string) (input_list : pyval) (w : world) :
  (∀ v v', json_loads s = Ok v → decoded json_loads v = Ok v' → malformed v') →
  (__init__ json_loads (PStr s) input_list w).2 = World (mkDTMF PNone None) (files w).
Proof.
  intros Hbad. unfold __init__.
  erewrite M_bind_ok; [|reflexivity].
  erewrite M_bind_ok; [|reflexivity].
  cbn [is_None negb self _dtmf_sequence _raw_data files].
  unfold mbind, M_bind, lift. simpl.
  destruct (json_loads s) as [v|e] eqn:Hs; [|reflexivity].
  apply dtmf_sequence_setter_malformed. intros v'. apply Hbad. reflexivity.
Qed.

Lemma init_never_falls_back_witness :
  sample_loads "[[1, 100]]" = Ok (PList [PList [PInt 1; PInt 100]]) ∧
  (∀ v v', sample_loads "[[1, 100]]" = Ok v → decoded sample_loads v = Ok v' →
           malformed v') ∧
  (__init__ sample_loads (PStr "[[1, 100]]") (PList [PTuple [PStr "1"; PInt 100]]) fresh).2 =
  World (mkDTMF PNone None) (files fresh).
Proof.
  assert (H : ∀ v v', sample_loads "[[1, 100]]" = Ok v → decoded sample_loads v = Ok v' →
                      malformed v').
  { intros v v' Hv. injection Hv as <-. intros Hv'. injection Hv' as <-. reflexivity. }
  split; [reflexivity|]. split; [exact H|].
  exact (init_never_falls_back sample_loads "[[1, 100]]"
           (PList [PTuple [PStr "1"; PInt 100]]) fresh H).
Defined.

(** ** More on the synthesiser *)

(** X13: every tone that has a sample starts with the sample 0 -- the phase
    of both sines starts afresh with each call -- and every tone of 1 ms to
    [2 ^ 44] ms has one. *)
Theorem tone_starts_at_zero (fp : binary64) (f1 f2 : Z) :
  binary64_ok fp →
  (∀ (v : pyval) (buf : list Z),
     generate_tone fp f1 f2 v = Ok buf → buf = [] ∨ buf !! 0%nat = Some 0) ∧
  (∀ d : Z, tone_precondition f1 f2 → 0 < d <= MAX_EXACT_MS →
     ∃ buf, generate_tone fp f1 f2 (PInt d) = Ok buf ∧ buf !! 0%nat = Some 0).
Proof.
  intros Hfp. split.
  - intros v buf Hg. apply generate_tone_inv in Hg as (_ & n & _ & ->).
    destruct (Z.le_gt_cases n 0) as [Hn|Hn].
    + left. rewrite py_range_nonpos by exact Hn. reflexivity.
    + right. rewrite list_lookup_fmap, (lookup_py_range _ 0) by (simpl; lia).
      change (Z.of_nat 0) with 0. cbn [fmap option_fmap option_map].
      rewrite (tone_sample_0 fp f1 f2 Hfp). reflexivity.
  - intros d Hpre Hd. eexists. split; [apply generate_tone_exact; [exact Hpre|lia]|].
    rewrite list_lookup_fmap, (lookup_py_range _ 0).
    + change (Z.of_nat 0) with 0. cbn [fmap option_fmap option_map].
      rewrite (tone_sample_0 fp f1 f2 Hfp). reflexivity.
    + assert (44 <= (SAMPLE_RATE * d) ÷ 1000).
      { apply Z.quot_le_lower_bound; unfold SAMPLE_RATE; lia. }
      simpl. lia.
Qed.

Lemma tone_starts_at_zero_witness :
  binary64_ok exact ∧
  (∀ (v : pyval) (buf : list Z),
     generate_tone exact 852 1477 v = Ok buf → buf = [] ∨ buf !! 0%nat = Some 0) ∧
  (∀ d : Z, tone_precondition 852 1477 → 0 < d <= MAX_EXACT_MS →
     ∃ buf, generate_tone exact 852 1477 (PInt d) = Ok buf ∧ buf !! 0%nat = Some 0).
Proof.
  split; [exact exact_ok|]. exact (tone_starts_at_zero exact 852 1477 exact_ok).
Defined.

(** X14: for a duration that is a multiple of 10 ms, up to [2 ^ 44] ms,
    nothing is lost to truncation: the buffer holds exactly 441 samples for
    every 10 ms, a thousand times which is [44100 * durationMs]. *)
Theorem sample_count_exact_at_10ms (fp : binary64) (f1 f2 k : Z) :
  tone_precondition f1 f2 →
  0 <= 10 * k <= MAX_EXACT_MS →
  ∃ buf, generate_tone fp f1 f2 (PInt (10 * k)) = Ok buf ∧
         Z.of_nat (length buf) = 441 * k ∧
         1000 * Z.of_nat (length buf) = SAMPLE_RATE * (10 * k).
Proof.
  intros Hpre Hk. eexists. split; [apply generate_tone_exact; assumption|].
  assert (Hlen : Z.of_nat (length (tone_sample fp f1 f2 <$>
                                   py_range ((SAMPLE_RATE * (10 * k)) ÷ 1000))) = 441 * k).
  { rewrite length_fmap, length_py_range.
    unfold SAMPLE_RATE. replace (44100 * (10 * k)) with ((441 * k) * 1000) by lia.
    rewrite Z.quot_mul by lia. lia. }
  split; [exact Hlen|].
  rewrite Hlen. unfold SAMPLE_RATE. lia.
Qed.

Lemma sample_count_exact_at_10ms_witness :
  tone_precondition 770 1336 ∧ 0 <= 10 * 25 <= MAX_EXACT_MS ∧
  ∃ buf, generate_tone exact 770 1336 (PInt (10 * 25)) = Ok buf ∧
         Z.of_nat (length buf) = 441 * 25 ∧
         1000 * Z.of_nat (length buf) = SAMPLE_RATE * (10 * 25).
Proof.
  assert (Hpre : tone_precondition 770 1336).
  { apply (bool_decide_unpack _). vm_compute. exact I. }
  assert (Hk : 0 <= 10 * 25 <= MAX_EXACT_MS) by (unfold MAX_EXACT_MS; lia).
  split; [exact Hpre|]. split; [exact Hk|].
  exact (sample_count_exact_at_10ms exact 770 1336 25 Hpre Hk).
Defined.

Lemma quot_1000_split (a b : Z) :
  0 <= a → 0 <= b →
  a ÷ 1000 + b ÷ 1000 <= (a + b) ÷ 1000 <= a ÷ 1000 + b ÷ 1000 + 1.
Proof.
  intros Ha Hb. rewrite !Z.quot_div_nonneg by lia.
  pose proof (Z.div_mod a 1000 ltac:(lia)).
  pose proof (Z.div_mod b 1000 ltac:(lia)).
  pose proof (Z.div_mod (a + b) 1000 ltac:(lia)).
  pose proof (Z.mod_pos_bound a 1000 ltac:(lia)).
  pose proof (Z.mod_pos_bound b 1000 ltac:(lia)).
  pose proof (Z.mod_pos_bound (a + b) 1000 ltac:(lia)).
  lia.
Qed.

(** X15: a tone given as two entries of [d1] and [d2] ms, [d1 + d2] up to
    [2 ^ 44], is never longer than the tone of [d1 + d2] ms, and shorter by
    one sample at most. *)
Theorem splitting_loses_at_most_one_sample (fp : binary64) (f1 f2 d1 d2 : Z) :
  tone_precondition f1 f2 →
  0 <= d1 → 0 <= d2 → d1 + d2 <= MAX_EXACT_MS →
  ∃ b1 b2 b,
    generate_tone fp f1 f2 (PInt d1) = Ok b1 ∧
    generate_tone fp f1 f2 (PInt d2) = Ok b2 ∧
    generate_tone fp f1 f2 (PInt (d1 + d2)) = Ok b ∧
    (length b1 + length b2 <= length b <= length b1 + length b2 + 1)%nat.
Proof.
  intros Hpre H1 H2 H12. eexists _, _, _.
  split; [apply generate_tone_exact; [exact Hpre|lia]|].
  split; [apply generate_tone_exact; [exact Hpre|lia]|].
  split; [apply generate_tone_exact; [exact Hpre|lia]|].
  rewrite !length_fmap, !length_py_range.
  unfold SAMPLE_RATE.
  pose proof (quot_1000_split (44100 * d1) (44100 * d2) ltac:(lia) ltac:(lia)) as Hs.
  replace (44100 * d1 + 44100 * d2) with (44100 * (d1 + d2)) in Hs by lia.
  assert (0 <= (44100 * d1) ÷ 1000) by (apply Z.quot_pos; lia).
  assert (0 <= (44100 * d2) ÷ 1000) by (apply Z.quot_pos; lia).
  lia.
Qed.

Lemma splitting_loses_at_most_one_sample_witness :
  tone_precondition 697 1209 ∧ 0 <= 5 ∧ 0 <= 5 ∧ 5 + 5 <= MAX_EXACT_MS ∧
  ∃ b1 b2 b,
    generate_tone exact 697 1209 (PInt 5) = Ok b1 ∧
    generate_tone exact 697 1209 (PInt 5) = Ok b2 ∧
    generate_tone exact 697 1209 (PInt (5 + 5)) = Ok b ∧
    (length b1 + length b2 <= length b <= length b1 + length b2 + 1)%nat.
Proof.
  assert (Hpre : tone_precondition 697 1209).
  { apply (bool_decide_unpack _). vm_compute. exact I. }
  assert (Hd : 0 <= 5) by lia.
  assert (Hs : 5 + 5 <= MAX_EXACT_MS) by (unfold MAX_EXACT_MS; lia).
  split; [exact Hpre|]. split; [exact Hd|]. split; [exact Hd|]. split; [exact Hs|].
  exact (splitting_loses_at_most_one_sample exact 697 1209 5 5 Hpre Hd Hd Hs).
Defined.

(** ** The frequency table *)

(** X16: the table pairs the sixteen keys one-to-one with the pairs of a
    row and a column frequency: every such pair belongs to a key, no two
    symbols share a pair, and the only further entry is [S] with [(0, 0)]. *)
Theorem FREQUENCY_MAP_one_to_one :
  (∀ r c : Z, r ∈ ROW_FREQ → c ∈ COL_FREQ → ∃ k, FREQUENCY_MAP !! k = Some (r, c)) ∧
  (∀ (k k' : string) (p : Z * Z),
     FREQUENCY_MAP !! k = Some p → FREQUENCY_MAP !! k' = Some p → k = k') ∧
  (∀ (k : string) (r c : Z),
     FREQUENCY_MAP !! k = Some (r, c) →
     (k = "S" ∧ r = 0 ∧ c = 0) ∨ (r ∈ ROW_FREQ ∧ c ∈ COL_FREQ)).
Proof.
  split; [|split].
  - intros r c Hr Hc.
    apply list_elem_of_In in Hr, Hc. simpl in Hr, Hc.
    destruct Hr as [<-|[<-|[<-|[<-|[]]]]]; destruct Hc as [<-|[<-|[<-|[<-|[]]]]];
      first [ exists "1"; reflexivity | exists "2"; reflexivity | exists "3"; reflexivity
            | exists "A"; reflexivity | exists "4"; reflexivity | exists "5"; reflexivity
            | exists "6"; reflexivity | exists "B"; reflexivity | exists "7"; reflexivity
            | exists "8"; reflexivity | exists "9"; reflexivity | exists "C"; reflexivity
            | exists "*"; reflexivity | exists "0"; reflexivity | exists "#"; reflexivity
            | exists "D"; reflexivity ].
  - assert (Hall : map_Forall (λ k p, map_Forall (λ k' p', p = p' → k = k') FREQUENCY_MAP)
                     FREQUENCY_MAP).
    { apply (bool_decide_unpack _). vm_compute. exact I. }
    intros k k' p Hk Hk'. exact (Hall k p Hk k' p Hk' eq_refl).
  - assert (Hall : map_Forall (λ k p, (k = "S" ∧ p.1 = 0 ∧ p.2 = 0) ∨
                                      (p.1 ∈ ROW_FREQ ∧ p.2 ∈ COL_FREQ)) FREQUENCY_MAP).
    { apply (bool_decide_unpack _). vm_compute. exact I. }
    intros k r c Hk. exact (Hall k (r, c) Hk).
Qed.

(** ** The bytes of a sample *)

(** The two upper bytes [struct.pack('i', i)] gives a 16-bit value. *)
Definition sign_byte (i : Z) : Byte.byte := if i <? 0 then Byte.xff else Byte.x00.

Lemma shiftr_16bit (i n : Z) :
  -32768 <= i < 32768 → 16 <= n → i ≫ n = if i <? 0 then -1 else 0.
Proof.
  intros Hi Hn. rewrite Z.shiftr_div_pow2 by lia.
  assert (H16 : 2 ^ 16 <= 2 ^ n) by (apply Z.pow_le_mono_r; lia).
  change (2 ^ 16) with 65536 in H16.
  destruct (i <? 0) eqn:Hneg.
  - apply Z.ltb_lt in Hneg. symmetry. apply (Z.div_unique_pos i (2 ^ n) (-1) (i + 2 ^ n)); lia.
  - apply Z.ltb_ge in Hneg. apply Z.div_small. lia.
Qed.

Lemma struct_pack_i_16bit (i : Z) :
  -32768 <= i < 32768 →
  struct_pack_i i = Ok [byte_of_Z i; byte_of_Z (i ≫ 8); sign_byte i; sign_byte i].
Proof.
  intros Hi. rewrite struct_pack_i_ok by (unfold in_c_int; lia).
  rewrite (shiftr_16bit i 16), (shiftr_16bit i 24) by lia.
  unfold sign_byte. destruct (i <? 0); reflexivity.
Qed.

(** X17: every sample of a buffer [generate_tone] returns is packed into
    four bytes of which the upper two carry the sign only ([00 00] or
    [ff ff]): read at the declared width of two bytes, every second frame is
    0 or -1. *)
Theorem tone_samples_pack_with_sign_words (fp : binary64) (f1 f2 : Z) (v : pyval)
    (buf : list Z) :
  binary64_ok fp →
  generate_tone fp f1 f2 v = Ok buf →
  Forall (λ i, struct_pack_i i =
               Ok [byte_of_Z i; byte_of_Z (i ≫ 8); sign_byte i; sign_byte i]) buf.
Proof.
  intros Hfp Hg. apply generate_tone_inv in Hg as (_ & n & _ & ->).
  apply Forall_fmap, Forall_forall. intros i _. simpl.
  apply struct_pack_i_16bit.
  pose proof (tone_sample_bounds fp f1 f2 i Hfp) as Hb. unfold scale in Hb. lia.
Qed.

Lemma tone_samples_pack_with_sign_words_witness :
  let buf := tone_sample exact 941 1209 <$> py_range ((SAMPLE_RATE * 40) ÷ 1000) in
  binary64_ok exact ∧
  generate_tone exact 941 1209 (PInt 40) = Ok buf ∧
  Forall (λ i, struct_pack_i i =
               Ok [byte_of_Z i; byte_of_Z (i ≫ 8); sign_byte i; sign_byte i]) buf.
Proof.
  intros buf.
  assert (Hg : generate_tone exact 941 1209 (PInt 40) = Ok buf).
  { apply generate_tone_exact.
    - apply (bool_decide_unpack _). vm_compute. exact I.
    - unfold MAX_EXACT_MS. lia. }
  split; [exact exact_ok|]. split; [exact Hg|].
  exact (tone_samples_pack_with_sign_words exact 941 1209 (PInt 40) buf exact_ok Hg).
Defined.

(** ** The script *)

(** X18: run as a script, the module succeeds whatever files there are: it
    calls [setnframes] with 26460 (six entries of 100 ms), writes 105840
    bytes of frames to [test.wav], which a reader takes for 52920 frames,
    and leaves a fresh [dtmf_dump.csv] with the 26460 samples. *)
Theorem main_succeeds (fp : binary64) (json_loads : string → result pyval) (w : world) :
  binary64_ok fp →
  ∃ raw : list Z,
    main fp json_loads w =
    (Ok (), World (mkDTMF sample_input (Some raw))
              (<["test.wav" := Wave (WaveFile 1 2 44100 26460 "NONE" "Uncompressed"
                                       (packed_frames raw))]>
                 (<["dtmf_dump.csv" := Text (csv_text raw)]> (files w)))) ∧
    Z.of_nat (length raw) = 26460 ∧
    Z.of_nat (length (packed_frames raw)) = 105840 ∧
    frames_on_file (WaveFile 1 2 44100 26460 "NONE" "Uncompressed" (packed_frames raw)) =
      52920.
Proof.
  intros Hfp.
  set (entries := [("1", 100); ("S", 100); ("2", 100); ("S", 100); ("A", 100); ("S", 100)]).
  assert (He : Forall2 entry_of
                 [PTuple [PStr "1"; PInt 100]; PTuple [PStr "S"; PInt 100];
                  PTuple [PStr "2"; PInt 100]; PTuple [PStr "S"; PInt 100];
                  PTuple [PStr "A"; PInt 100]; PTuple [PStr "S"; PInt 100]] entries)
    by (repeat constructor).
  assert (Hk : Forall (λ e : string * Z, symbol_known e.1 = true ∧ 0 <= e.2 <= MAX_EXACT_MS)
                      entries)
    by (repeat constructor; simpl; unfold MAX_EXACT_MS; lia).
  pose proof (synthesised_all_exact fp entries Hk) as Hs.
  assert (Hlen : Z.of_nat (length (concat (entry_samples fp <$> entries))) = 26460).
  { rewrite length_concat_Zsum. unfold entries.
    rewrite !fmap_cons, !fmap_nil, !Zsum_cons, !length_entry_samples
      by (reflexivity || (simpl; lia)).
    reflexivity. }
  exists (concat (entry_samples fp <$> entries)).
  assert (Hbytes : Z.of_nat (length (packed_frames (concat (entry_samples fp <$> entries)))) =
                   105840) by (rewrite length_packed_frames; lia).
  split; [|split; [exact Hlen|split; [exact Hbytes|]]].
  2: { unfold frames_on_file. cbn [frames nchannels sampwidth]. rewrite Hbytes. reflexivity. }
  unfold main.
  erewrite M_bind_ok; [|reflexivity].
  unfold create_dtmf_wave_file, sample_input. cbv zeta.
  erewrite M_bind_ok; [|apply dtmf_sequence_setter_accepts; reflexivity].
  erewrite M_bind_ok; [|apply (generate_raw_data_entries fp _ entries); assumption].
  erewrite M_bind_ok; [|reflexivity].
  cbn [self files].
  erewrite M_bind_ok.
  2: { erewrite M_bind_ok; [|reflexivity].
       erewrite M_bind_ok; [|reflexivity].
       cbn [self _raw_data files]. rewrite insert_delete_eq.
       apply dump_loop. }
  rewrite (save_wave_file_entries fp _ entries (entry_samples fp <$> entries)) by assumption.
  unfold saved_wave. rewrite Hlen. reflexivity.
Qed.

Lemma main_succeeds_witness :
  binary64_ok exact ∧
  ∃ raw : list Z,
    main exact no_text fresh =
    (Ok (), World (mkDTMF sample_input (Some raw))
              (<["test.wav" := Wave (WaveFile 1 2 44100 26460 "NONE" "Uncompressed"
                                       (packed_frames raw))]>
                 (<["dtmf_dump.csv" := Text (csv_text raw)]> (files fresh)))) ∧
    Z.of_nat (length raw) = 26460 ∧
    Z.of_nat (length (packed_frames raw)) = 105840 ∧
    frames_on_file (WaveFile 1 2 44100 26460 "NONE" "Uncompressed" (packed_frames raw)) =
      52920.
Proof.
  split; [exact exact_ok|]. exact (main_succeeds exact no_text fresh exact_ok).
Defined.


